(** * MCDReforged: life cycle of a regular plugin

    A shallow embedding of [mcdreforged/plugin/regular_plugin.py]: the class
    [RegularPlugin], its load / ready / reload / unload / remove life cycle,
    the bookkeeping of the entries a load adds to [sys.modules], and the
    file-hash check.  Mutable state is threaded explicitly; a raised Python
    exception is a result value that keeps the state reached so far. *)

From Stdlib Require Import NArith ZArith List String Ascii Bool Lia.
From Stdlib Require Import Init.Byte.
Import ListNotations.

Set Implicit Arguments.

(* ================================================================== *)
(** ** [hashlib.sha256]

    [get_file_hash] calls [hashlib.sha256(data).hexdigest()].  The digest
    is written out here (FIPS 180-4) over 32-bit words held in [N], so that
    file hashes of concrete files can be evaluated. *)

Module SHA256.
Local Open Scope N_scope.

Definition mask32 : N := 0xffffffff.
Definition wrap32 (x : N) : N := N.land x mask32.
Definition add32 (x y : N) : N := wrap32 (x + y).
Definition not32 (x : N) : N := N.lxor x mask32.

Definition rotr (n x : N) : N :=
  N.lor (N.shiftr x n) (wrap32 (N.shiftl x (32 - n))).

Definition Ch (x y z : N) : N := N.lxor (N.land x y) (N.land (not32 x) z).
Definition Maj (x y z : N) : N :=
  N.lxor (N.lxor (N.land x y) (N.land x z)) (N.land y z).
Definition bsig0 (x : N) : N := N.lxor (N.lxor (rotr 2 x) (rotr 13 x)) (rotr 22 x).
Definition bsig1 (x : N) : N := N.lxor (N.lxor (rotr 6 x) (rotr 11 x)) (rotr 25 x).
Definition ssig0 (x : N) : N := N.lxor (N.lxor (rotr 7 x) (rotr 18 x)) (N.shiftr x 3).
Definition ssig1 (x : N) : N := N.lxor (N.lxor (rotr 17 x) (rotr 19 x)) (N.shiftr x 10).

(** The constants are fixed by the standard as fractional parts of roots
    of the first primes; they are computed here rather than tabulated. *)
Definition is_prime (n : N) : bool :=
  (1 <? n) && forallb (fun d => negb (n mod (N.of_nat d) =? 0))
                      (seq 2 (N.to_nat n - 2)).

(** The first 64 primes: 2, 3, 5, ..., 311. *)
Definition primes : list N := filter is_prime (map N.of_nat (seq 2 310)).

(** Integer cube root by bisection on the bits of the result. *)
Fixpoint cube_root (bits : nat) (acc x : N) : N :=
  match bits with
  | O => acc
  | S b =>
      let candidate := acc + 2 ^ N.of_nat b in
      if candidate * candidate * candidate <=? x
      then cube_root b candidate x
      else cube_root b acc x
  end.

(** Round constants: the first 32 bits of the fractional part of the cube
    root of each prime. *)
Definition K : list N :=
  map (fun q => wrap32 (cube_root 36 0 (q * 2 ^ 96))) primes.

(** Initial hash value: the same of the square roots of the first eight. *)
Definition H0 : list N :=
  map (fun q => wrap32 (N.sqrt (q * 2 ^ 64))) (firstn 8 primes).

(** Big-endian packing of bytes into words and back. *)
Definition be_word (bs : list N) : N :=
  fold_left (fun acc b => N.lor (N.shiftl acc 8) b) bs 0.

Fixpoint be_bytes (count : nat) (x : N) : list N :=
  match count with
  | O => []
  | S c => be_bytes c (N.shiftr x 8) ++ [N.land x 0xff]
  end.

(** Padding: a 1 bit, zeros up to 56 mod 64 bytes, then the bit length on
    eight bytes. *)
Definition pad (msg : list N) : list N :=
  let len := N.of_nat (List.length msg) in
  let zeros := N.to_nat ((119 - len mod 64) mod 64) in
  msg ++ [0x80] ++ repeat 0 zeros ++ be_bytes 8 (8 * len).

Fixpoint chunks (fuel size : nat) (l : list N) : list (list N) :=
  match fuel with
  | O => []
  | S f =>
      match l with
      | [] => []
      | _ => firstn size l :: chunks f size (skipn size l)
      end
  end.

(** Message schedule, most recent word first. *)
Fixpoint schedule (rounds : nat) (recent : list N) : list N :=
  match rounds with
  | O => recent
  | S r =>
      let w := add32 (add32 (ssig1 (nth 1 recent 0)) (nth 6 recent 0))
                     (add32 (ssig0 (nth 14 recent 0)) (nth 15 recent 0)) in
      schedule r (w :: recent)
  end.

Record regs := Regs { ra : N; rb : N; rc : N; rd : N; re : N; rf : N; rg : N; rh : N }.

Definition round (s : regs) (kw : N * N) : regs :=
  let t1 := add32 (add32 (add32 (rh s) (bsig1 (re s))) (Ch (re s) (rf s) (rg s)))
                  (add32 (fst kw) (snd kw)) in
  let t2 := add32 (bsig0 (ra s)) (Maj (ra s) (rb s) (rc s)) in
  Regs (add32 t1 t2) (ra s) (rb s) (rc s) (add32 (rd s) t1) (re s) (rf s) (rg s).

Definition regs_of (h : list N) : regs :=
  Regs (nth 0 h 0) (nth 1 h 0) (nth 2 h 0) (nth 3 h 0)
       (nth 4 h 0) (nth 5 h 0) (nth 6 h 0) (nth 7 h 0).

Definition regs_list (s : regs) : list N :=
  [ra s; rb s; rc s; rd s; re s; rf s; rg s; rh s].

Definition compress (h : list N) (block : list N) : list N :=
  let w16 := map be_word (chunks 16 4 block) in
  let w := rev (schedule 48 (rev w16)) in
  let s := fold_left round (combine K w) (regs_of h) in
  map (fun p => add32 (fst p) (snd p)) (combine h (regs_list s)).

Definition digest_words (msg : list byte) : list N :=
  let padded := pad (map Byte.to_N msg) in
  fold_left compress (chunks (List.length padded) 64 padded) H0.

Definition hex_digit (d : N) : ascii :=
  if d <? 10 then ascii_of_N (48 + d) else ascii_of_N (87 + d).

Definition hex_byte (b : N) : string :=
  String (hex_digit (N.shiftr b 4)) (String (hex_digit (N.land b 0xf)) EmptyString).

(** [hashlib.sha256(msg).hexdigest()]: 64 lower-case hexadecimal digits. *)
Definition hexdigest (msg : list byte) : string :=
  fold_right append EmptyString
             (map hex_byte (flat_map (be_bytes 4) (digest_words msg))).

End SHA256.

Local Open Scope string_scope.

(* ================================================================== *)
(** ** Python values, dictionaries, exceptions *)

(** The objects a plugin module exposes, as far as this file looks at them:
    [PyFunction] stands for the callable ones, [PyOther] for any further
    object that is not callable (a dict such as [PLUGIN_METADATA], a
    list, ...). *)
Inductive PyObject : Type :=
| PyNone
| PyStr (s : string)
| PyInt (z : Z)
| PyFunction (qualname : string)
| PyOther (repr : string).

Definition callable (o : PyObject) : bool :=
  match o with
  | PyFunction _ => true
  | _ => false
  end.

(** A [dict] with string keys, in insertion order. *)
Definition dict (V : Type) : Type := list (string * V).

Definition dict_keys {V} (d : dict V) : list string := map fst d.

(** [key in keys] *)
Definition contains (key : string) (keys : list string) : bool :=
  existsb (String.eqb key) keys.

Fixpoint dict_get {V} (d : dict V) (key : string) : option V :=
  match d with
  | [] => None
  | (k, v) :: rest => if String.eqb key k then Some v else dict_get rest key
  end.

(** [d[key] = value]: a present key keeps its place, a new one goes last. *)
Fixpoint dict_set {V} (d : dict V) (key : string) (value : V) : dict V :=
  match d with
  | [] => [(key, value)]
  | (k, v) :: rest =>
      if String.eqb key k then (k, value) :: rest
      else (k, v) :: dict_set rest key value
  end.

Definition dict_remove {V} (d : dict V) (key : string) : dict V :=
  filter (fun kv => negb (String.eqb key (fst kv))) d.

(** [d.pop(key)]: [None] stands for the [KeyError] of a missing key.  The
    keys of a [dict] are distinct, so that [dict_remove] drops one entry. *)
Definition dict_pop {V} (d : dict V) (key : string) : option (V * dict V) :=
  match dict_get d key with
  | Some v => Some (v, dict_remove d key)
  | None => None
  end.

(** A module object: its name and its namespace. *)
Record PyModule : Type := {
  module_name : string;
  module_dict : dict PyObject
}.

(** [getattr(obj, name, default)] where [obj] is a module or [None]
    ([None] carries no attribute of the names looked up here). *)
Definition getattr (obj : option PyModule) (name : string) (default : PyObject)
  : PyObject :=
  match obj with
  | Some m =>
      match dict_get (module_dict m) name with
      | Some v => v
      | None => default
      end
  | None => default
  end.

Inductive Exception : Type :=
| IllegalCallError (msg : string)
| KeyError (key : string)
| OtherException (class_name : string) (msg : string).

Inductive Result (A : Type) : Type :=
| Ok (a : A)
| Raise (e : Exception).
Arguments Ok {A} a.
Arguments Raise {A} e.

(** [os.path.basename] on POSIX paths: what follows the last slash. *)
Fixpoint basename (path : string) : string :=
  match path with
  | EmptyString => EmptyString
  | String c rest =>
      if existsb (Ascii.eqb "/"%char) (list_ascii_of_string rest)
      then basename rest
      else if Ascii.eqb c "/"%char then rest else String c rest
  end.

(** ['{}'.format(x)] for an optional string. *)
Definition str_opt (x : option string) : string :=
  match x with
  | Some s => s
  | None => "None"
  end.

(* ================================================================== *)
(** ** Plugin states, events, log records, the process state *)

(** Modelled from the spec: [PluginState], an enumeration declared next to
    [AbstractPlugin]; "Uninitialized, Loaded, Ready, Unloading, Unloaded
    (terminal)".  The member names are those the file uses. *)
Inductive PluginState : Type :=
| UNINITIALIZED
| LOADED
| READY
| UNLOADING
| UNLOADED.

Definition PluginState_eqb (a b : PluginState) : bool :=
  match a, b with
  | UNINITIALIZED, UNINITIALIZED
  | LOADED, LOADED
  | READY, READY
  | UNLOADING, UNLOADING
  | UNLOADED, UNLOADED => true
  | _, _ => false
  end.

(** [str(state)], as Python prints a member of a plain [Enum]. *)
Definition PluginState_str (s : PluginState) : string :=
  "PluginState." ++
  match s with
  | UNINITIALIZED => "UNINITIALIZED"
  | LOADED => "LOADED"
  | READY => "READY"
  | UNLOADING => "UNLOADING"
  | UNLOADED => "UNLOADED"
  end.

(** Modelled from the spec: an entry of [MCDRPluginEvents.get_event_list()],
    a known event "with an optional conventional default-handler name";
    [default_method_name] is a [str] or [None]. *)
Record PluginEvent : Type := {
  event_id : string;
  default_method_name : option string
}.

(** Modelled from the spec: [EventListener(plugin, callback, priority)],
    "owning plugin, callback reference, priority"; the owning plugin is
    referred to by its file path. *)
Record EventListener : Type := {
  listener_plugin : string;
  listener_callback : PyObject;
  listener_priority : Z
}.

Inductive LogLevel : Type := DEBUG | CRITICAL.

Definition LogLevel_eqb (a b : LogLevel) : bool :=
  match a, b with
  | DEBUG, DEBUG | CRITICAL, CRITICAL => true
  | _, _ => false
  end.

Record LogRecord : Type := {
  log_level : LogLevel;
  log_message : string
}.

(** What the plugin shares with the rest of the process: the files on disk,
    [sys.modules], and the records sent to [mcdr_server.logger]. *)
Record World : Type := {
  files : dict (list byte);
  sys_modules : dict PyModule;
  logger : list LogRecord
}.

Definition set_sys_modules (w : World) (m : dict PyModule) : World :=
  {| files := files w; sys_modules := m; logger := logger w |}.

Definition emit (w : World) (r : LogRecord) : World :=
  {| files := files w; sys_modules := sys_modules w; logger := logger w ++ [r] |}.

(* ================================================================== *)
(** ** The class [RegularPlugin] *)

Section RegularPlugin.

(** The class [MetaData] is declared in [mcdreforged.plugin.metadata]. *)
Variable MetaData : Type.

(** The fields of a [RegularPlugin]: the first three are set by
    [AbstractPlugin.__init__], the others by [RegularPlugin.__init__]. *)
Record Plugin : Type := {
  file_path : string;
  state : PluginState;
  plugin_registry : list (PluginEvent * EventListener);
  file_name : string;
  file_hash : option string;
  module_instance : option PyModule;
  old_module_instance : option PyModule;
  newly_loaded_module : list string;
  __metadata : option MetaData
}.

(** What the file imports and does not define. *)
Record Collaborators : Type := {
  (** [misc_util.load_source(path)]: runs the file; it may add entries to
      [sys.modules] (and change the files and the log as well), and returns
      the module or raises. *)
  load_source : string -> World -> World * Result PyModule;
  (** Modelled from the spec: the metadata parser, [MetaData(plugin, data)];
      "given a raw optional attribute, returns a structured metadata record
      (or a default)". *)
  MetaData_new : Plugin -> PyObject -> MetaData;
  (** [MCDRPluginEvents.get_event_list()], a static catalog. *)
  get_event_list : list PluginEvent;
  DEFAULT_LISTENER_PRIORITY : Z;
  (** ['{}'.format(self)]: [str] of the plugin, which the base class may
      define apart from [__repr__]. *)
  plugin_str : Plugin -> string;
  (** The text of the error of a failed state assertion. *)
  assert_state_message : Plugin -> list PluginState -> string
}.

Variable ext : Collaborators.

(** *** Field updates *)

Definition with_state (p : Plugin) (s : PluginState) : Plugin :=
  {| file_path := file_path p; state := s;
     plugin_registry := plugin_registry p; file_name := file_name p;
     file_hash := file_hash p; module_instance := module_instance p;
     old_module_instance := old_module_instance p;
     newly_loaded_module := newly_loaded_module p;
     __metadata := __metadata p |}.

Definition with_plugin_registry (p : Plugin) (r : list (PluginEvent * EventListener))
  : Plugin :=
  {| file_path := file_path p; state := state p;
     plugin_registry := r; file_name := file_name p;
     file_hash := file_hash p; module_instance := module_instance p;
     old_module_instance := old_module_instance p;
     newly_loaded_module := newly_loaded_module p;
     __metadata := __metadata p |}.

Definition with_file_hash (p : Plugin) (h : option string) : Plugin :=
  {| file_path := file_path p; state := state p;
     plugin_registry := plugin_registry p; file_name := file_name p;
     file_hash := h; module_instance := module_instance p;
     old_module_instance := old_module_instance p;
     newly_loaded_module := newly_loaded_module p;
     __metadata := __metadata p |}.

Definition with_module_instance (p : Plugin) (m : option PyModule) : Plugin :=
  {| file_path := file_path p; state := state p;
     plugin_registry := plugin_registry p; file_name := file_name p;
     file_hash := file_hash p; module_instance := m;
     old_module_instance := old_module_instance p;
     newly_loaded_module := newly_loaded_module p;
     __metadata := __metadata p |}.

Definition with_old_module_instance (p : Plugin) (m : option PyModule) : Plugin :=
  {| file_path := file_path p; state := state p;
     plugin_registry := plugin_registry p; file_name := file_name p;
     file_hash := file_hash p; module_instance := module_instance p;
     old_module_instance := m;
     newly_loaded_module := newly_loaded_module p;
     __metadata := __metadata p |}.

Definition with_newly_loaded_module (p : Plugin) (l : list string) : Plugin :=
  {| file_path := file_path p; state := state p;
     plugin_registry := plugin_registry p; file_name := file_name p;
     file_hash := file_hash p; module_instance := module_instance p;
     old_module_instance := old_module_instance p;
     newly_loaded_module := l;
     __metadata := __metadata p |}.

Definition with_metadata (p : Plugin) (m : option MetaData) : Plugin :=
  {| file_path := file_path p; state := state p;
     plugin_registry := plugin_registry p; file_name := file_name p;
     file_hash := file_hash p; module_instance := module_instance p;
     old_module_instance := old_module_instance p;
     newly_loaded_module := newly_loaded_module p;
     __metadata := m |}.

(** *** Methods as state transformers

    A method runs on the process state and the plugin object, and ends with
    a value or a raised exception; the state it reached is kept either way. *)

Definition Py (A : Type) : Type := World * Plugin -> (World * Plugin) * Result A.

Definition ret {A} (a : A) : Py A := fun s => (s, Ok a).

Definition raise {A} (e : Exception) : Py A := fun s => (s, Raise e).

Definition bind {A B} (m : Py A) (k : A -> Py B) : Py B :=
  fun s =>
    match m s with
    | (s', Ok a) => k a s'
    | (s', Raise e) => (s', Raise e)
    end.

Notation "x <- m ;; k" := (bind m (fun x => k))
  (at level 61, m at next level, right associativity).
Notation "m ;; k" := (bind m (fun _ => k))
  (at level 61, right associativity).

Definition get_self : Py Plugin := fun s => (s, Ok (snd s)).
Definition get_world : Py World := fun s => (s, Ok (fst s)).
Definition update_self (f : Plugin -> Plugin) : Py unit :=
  fun s => ((fst s, f (snd s)), Ok tt).
Definition update_world (f : World -> World) : Py unit :=
  fun s => ((f (fst s), snd s), Ok tt).

(** [try: body finally: cleanup] *)
Definition try_finally {A} (body : Py A) (cleanup : Py unit) : Py A :=
  fun s =>
    let (s1, r) := body s in
    match cleanup s1 with
    | (s2, Ok _) => (s2, r)
    | (s2, Raise e) => (s2, Raise e)
    end.

(** [try: body except KeyError: handler else: orelse] *)
Definition try_except_KeyError_else {A B}
           (body : Py A) (handler : Py B) (orelse : Py B) : Py B :=
  fun s =>
    match body s with
    | (s1, Ok _) => orelse s1
    | (s1, Raise (KeyError _)) => handler s1
    | (s1, Raise e) => (s1, Raise e)
    end.

(** [for x in l: body] *)
Fixpoint for_each {A} (l : list A) (body : A -> Py unit) : Py unit :=
  match l with
  | [] => ret tt
  | x :: rest => body x ;; for_each rest body
  end.

(** [with GLOBAL_LOAD_LOCK: body]: the lock is reentrant and one caller is
    modelled, so that acquiring and releasing it leave the state alone. *)
Definition with_GLOBAL_LOAD_LOCK {A} (body : Py A) : Py A := body.

(** [self.mcdr_server.logger.debug(msg)] and [.critical(msg)] *)
Definition logger_debug (msg : string) : Py unit :=
  update_world (fun w => emit w {| log_level := DEBUG; log_message := msg |}).
Definition logger_critical (msg : string) : Py unit :=
  update_world (fun w => emit w {| log_level := CRITICAL; log_message := msg |}).

(** *** What [RegularPlugin] inherits from [AbstractPlugin] *)

(** Modelled from the spec: [AbstractPlugin.assert_state], declared in
    [mcdreforged.plugin.plugin]; "asserts the current state is a member of
    its permitted precondition set; violation fails with an IllegalCall
    error". *)
Definition assert_state (states : list PluginState) : Py unit :=
  self <- get_self ;;
  if existsb (PluginState_eqb (state self)) states
  then ret tt
  else raise (IllegalCallError (assert_state_message ext self states)).

(** Modelled from the spec: [AbstractPlugin.set_state], "setState(newState)". *)
Definition set_state (s : PluginState) : Py unit :=
  update_self (fun p => with_state p s).

(** Modelled from the spec: [AbstractPlugin.add_event_listener], the
    "add(event, listener)" of the per-plugin listener collection. *)
Definition add_event_listener (event : PluginEvent) (listener : EventListener)
  : Py unit :=
  update_self (fun p => with_plugin_registry p (plugin_registry p ++ [(event, listener)])).

(** Modelled from the spec: [self.plugin_registry.clear()], the "clear()" of
    the per-plugin listener collection. *)
Definition plugin_registry_clear : Py unit :=
  update_self (fun p => with_plugin_registry p []).

(** *** Construction and accessors *)

(** Modelled from the spec: the part [AbstractPlugin.__init__] sets; a
    plugin is created "starting in an uninitialized state", and no listener
    is registered yet.  The other fields are as [RegularPlugin.__init__]
    assigns them. *)
Definition __init__ (path : string) : Plugin :=
  {| file_path := path;
     state := UNINITIALIZED;
     plugin_registry := [];
     file_name := basename path;
     file_hash := None;
     module_instance := None;
     old_module_instance := None;
     newly_loaded_module := [];
     __metadata := None |}.

Definition is_regular : bool := true.

Definition __repr__ (p : Plugin) : string :=
  "RegularPlugin[file=" ++ file_name p ++ ",path=" ++ file_path p
    ++ ",state=" ++ PluginState_str (state p) ++ "]".

Definition get_metadata : Py MetaData :=
  self <- get_self ;;
  match __metadata self with
  | None =>
      raise (IllegalCallError
               ("Meta data of plugin " ++ __repr__ self
                  ++ " is not loaded. Plugin state = " ++ PluginState_str (state self)))
  | Some m => ret m
  end.

Definition __register_default_listeners : Py unit :=
  for_each (get_event_list ext) (fun event =>
    match default_method_name event with
    | Some name =>
        self <- get_self ;;
        let func := getattr (module_instance self) name PyNone in
        if callable func
        then add_event_listener event
               {| listener_plugin := file_path self;
                  listener_callback := func;
                  listener_priority := DEFAULT_LISTENER_PRIORITY ext |}
        else ret tt
    | None => ret tt
    end).

(** *** Plugin file *)

Definition isfile (w : World) (path : string) : bool :=
  match dict_get (files w) path with
  | Some _ => true
  | None => false
  end.

Definition file_exists : Py bool :=
  self <- get_self ;;
  w <- get_world ;;
  ret (isfile w (file_path self)).

(** [open(path, 'rb')] followed by [file.read()]: the whole content. *)
Definition open_read (path : string) : Py (list byte) :=
  w <- get_world ;;
  match dict_get (files w) path with
  | Some content => ret content
  | None => raise (OtherException "FileNotFoundError" path)
  end.

Definition get_file_hash : Py (option string) :=
  present <- file_exists ;;
  if present
  then self <- get_self ;;
       content <- open_read (file_path self) ;;
       ret (Some (SHA256.hexdigest content))
  else ret None.

(** [a != b] on optional strings *)
Definition opt_str_neq (a b : option string) : bool :=
  match a, b with
  | Some x, Some y => negb (String.eqb x y)
  | None, None => false
  | _, _ => true
  end.

Definition file_changed : Py bool :=
  h <- get_file_hash ;;
  self <- get_self ;;
  ret (opt_str_neq h (file_hash self)).

(** *** Life cycle *)

Definition call_load_source (path : string) : Py PyModule :=
  fun s =>
    let (w', r) := load_source ext path (fst s) in
    ((w', snd s), r).

(** [sys.modules.pop(module)] *)
Definition sys_modules_pop (module : string) : Py PyModule :=
  fun s =>
    match dict_pop (sys_modules (fst s)) module with
    | Some (m, rest) => ((set_sys_modules (fst s) rest, snd s), Ok m)
    | None => (s, Raise (KeyError module))
    end.

(** [[module for module in sys.modules if module not in previous_modules]] *)
Definition modules_not_in (previous_modules current : dict PyModule) : list string :=
  filter (fun module => negb (contains module (dict_keys previous_modules)))
         (dict_keys current).

Definition __load_instance : Py unit :=
  h <- get_file_hash ;;
  update_self (fun p => with_file_hash p h) ;;
  with_GLOBAL_LOAD_LOCK
    (w <- get_world ;;
     let previous_modules := sys_modules w in
     update_self (fun p => with_old_module_instance p (module_instance p)) ;;
     try_finally
       (self <- get_self ;;
        m <- call_load_source (file_path self) ;;
        update_self (fun p => with_module_instance p (Some m)))
       (w' <- get_world ;;
        update_self (fun p =>
          with_newly_loaded_module p
            (modules_not_in previous_modules (sys_modules w'))))) ;;
  self <- get_self ;;
  update_self (fun p =>
    with_metadata p
      (Some (MetaData_new ext self
               (getattr (module_instance self) "PLUGIN_METADATA" PyNone)))) ;;
  plugin_registry_clear.

Definition load : Py unit :=
  assert_state [UNINITIALIZED] ;;
  __load_instance ;;
  self <- get_self ;;
  logger_debug ("Plugin " ++ plugin_str ext self ++ " loaded from " ++ file_path self
                  ++ ", file sha256 = " ++ str_opt (file_hash self)) ;;
  set_state LOADED.

Definition ready : Py unit :=
  assert_state [LOADED; READY] ;;
  __register_default_listeners ;;
  set_state READY.

Definition reload : Py unit :=
  assert_state [LOADED; READY] ;;
  __load_instance ;;
  self <- get_self ;;
  logger_debug ("RegularPlugin " ++ plugin_str ext self
                  ++ " reloaded, file sha256 = " ++ str_opt (file_hash self)).

Definition unload : Py unit :=
  assert_state [UNINITIALIZED; LOADED; READY] ;;
  with_GLOBAL_LOAD_LOCK
    (self <- get_self ;;
     for_each (newly_loaded_module self) (fun module =>
       try_except_KeyError_else
         (sys_modules_pop module)
         (self <- get_self ;;
          logger_critical ("Module " ++ module ++ " not found when unloading plugin "
                             ++ __repr__ self))
         (self <- get_self ;;
          logger_debug ("Removed module " ++ module ++ " when unloading plugin "
                          ++ __repr__ self))) ;;
     update_self (fun p => with_newly_loaded_module p [])) ;;
  set_state UNLOADING.

Definition remove : Py unit :=
  assert_state [UNLOADING] ;;
  set_state UNLOADED.

(** *** Closed forms the statements below refer to *)

(** The digest of the file at [path] as it is on disk in [w], [None] when
    there is no such file. *)
Definition file_digest (w : World) (path : string) : option string :=
  option_map SHA256.hexdigest (dict_get (files w) path).

(** The plugin object [__load_instance] leaves when the loader raises, and
    the one it leaves when the loader returns [m]; [w1] is the process state
    the loader left. *)
Definition after_failed_load (w : World) (p : Plugin) (w1 : World) : Plugin :=
  with_newly_loaded_module
    (with_old_module_instance
       (with_file_hash p (file_digest w (file_path p)))
       (module_instance p))
    (modules_not_in (sys_modules w) (sys_modules w1)).

Definition after_load (w : World) (p : Plugin) (w1 : World) (m : PyModule) : Plugin :=
  let p2 :=
    with_newly_loaded_module
      (with_module_instance
         (with_old_module_instance
            (with_file_hash p (file_digest w (file_path p)))
            (module_instance p))
         (Some m))
      (modules_not_in (sys_modules w) (sys_modules w1)) in
  with_plugin_registry
    (with_metadata p2
       (Some (MetaData_new ext p2 (getattr (Some m) "PLUGIN_METADATA" PyNone))))
    [].

(** The listener [__register_default_listeners] builds for a handler. *)
Definition default_listener (p : Plugin) (func : PyObject) : EventListener :=
  {| listener_plugin := file_path p;
     listener_callback := func;
     listener_priority := DEFAULT_LISTENER_PRIORITY ext |}.

(** The listeners a pass over [events] adds, in order. *)
Definition listeners_for (p : Plugin) (events : list PluginEvent)
  : list (PluginEvent * EventListener) :=
  flat_map (fun event =>
    match default_method_name event with
    | Some name =>
        let func := getattr (module_instance p) name PyNone in
        if callable func then [(event, default_listener p func)] else []
    | None => []
    end) events.

Definition default_listeners (p : Plugin) : list (PluginEvent * EventListener) :=
  listeners_for p (get_event_list ext).

(** The two records [unload] writes about a module. *)
Definition not_found_record (p : Plugin) (module : string) : LogRecord :=
  {| log_level := CRITICAL;
     log_message := "Module " ++ module ++ " not found when unloading plugin "
                      ++ __repr__ p |}.

Definition removed_record (p : Plugin) (module : string) : LogRecord :=
  {| log_level := DEBUG;
     log_message := "Removed module " ++ module ++ " when unloading plugin "
                      ++ __repr__ p |}.

(** The records the eviction loop of [unload] writes for the list [l] of
    modules against the registry [d]. *)
Fixpoint unload_records (p : Plugin) (l : list string) (d : dict PyModule)
  : list LogRecord :=
  match l with
  | [] => []
  | module :: rest =>
      (if contains module (dict_keys d)
       then removed_record p module
       else not_found_record p module)
        :: unload_records p rest (dict_remove d module)
  end.

Definition criticals (l : list LogRecord) : list LogRecord :=
  filter (fun r => LogLevel_eqb (log_level r) CRITICAL) l.

(** [sys.modules] is a [dict]: no key occurs twice. *)
Definition registry_is_dict (w : World) : Prop :=
  NoDup (dict_keys (sys_modules w)).

(** *** Histories of a plugin

    The plugin manager calls the life-cycle methods one after the other and
    catches what they raise; between two calls other actors may change the
    files, [sys.modules] and the log. *)

Inductive Call : Type := CallLoad | CallReady | CallReload | CallUnload | CallRemove.

Definition invoke (c : Call) : Py unit :=
  match c with
  | CallLoad => load
  | CallReady => ready
  | CallReload => reload
  | CallUnload => unload
  | CallRemove => remove
  end.

Inductive Step : Type :=
| Invoke (c : Call)
| Outside (change : World -> World).

Fixpoint run_history (h : list Step) (s : World * Plugin) : World * Plugin :=
  match h with
  | [] => s
  | Invoke c :: rest => run_history rest (fst (invoke c s))
  | Outside change :: rest => run_history rest (change (fst s), snd s)
  end.

(** The other actors of the history leave [sys.modules] a [dict]. *)
Fixpoint outside_keeps_dict (h : list Step) : Prop :=
  match h with
  | [] => True
  | Invoke _ :: rest => outside_keeps_dict rest
  | Outside change :: rest =>
      (forall w, registry_is_dict w -> registry_is_dict (change w))
      /\ outside_keeps_dict rest
  end.

(** The states each method asserts on entry. *)
Definition permitted (c : Call) : list PluginState :=
  match c with
  | CallLoad => [UNINITIALIZED]
  | CallReady => [LOADED; READY]
  | CallReload => [LOADED; READY]
  | CallUnload => [UNINITIALIZED; LOADED; READY]
  | CallRemove => [UNLOADING]
  end.

(** The position of a state along the life cycle. *)
Definition state_rank (s : PluginState) : nat :=
  match s with
  | UNINITIALIZED => 0
  | LOADED => 1
  | READY => 2
  | UNLOADING => 3
  | UNLOADED => 4
  end.

(** What the state of a plugin tells about its fields. *)
Definition lifecycle_invariant (p : Plugin) : Prop :=
  (state p = UNINITIALIZED ->
   module_instance p = None /\ __metadata p = None /\ plugin_registry p = [])
  /\ (state p = LOADED -> plugin_registry p = [])
  /\ (state p = LOADED \/ state p = READY ->
      module_instance p <> None /\ __metadata p <> None).

(** The record [unload] writes about [module] when the registry is [d]. *)
Definition unload_record (p : Plugin) (d : dict PyModule) (module : string)
  : LogRecord :=
  if contains module (dict_keys d)
  then removed_record p module
  else not_found_record p module.

(** The event has a default handler name that the loaded module binds to a
    callable. *)
Definition has_default_handler (p : Plugin) (event : PluginEvent) : bool :=
  match default_method_name event with
  | Some name => callable (getattr (module_instance p) name PyNone)
  | None => false
  end.


(** No [load] or [reload] of the history returned normally. *)
Fixpoint no_load_completed (h : list Step) (s : World * Plugin) : Prop :=
  match h with
  | [] => True
  | Invoke c :: rest =>
      match c, snd (invoke c s) with
      | CallLoad, Ok _ | CallReload, Ok _ => False
      | _, _ => True
      end /\ no_load_completed rest (fst (invoke c s))
  | Outside change :: rest => no_load_completed rest (change (fst s), snd s)
  end.

End RegularPlugin.

Arguments SHA256.hexdigest : simpl never.
Arguments ret {MetaData A} a _.
Arguments raise {MetaData A} e _.
Arguments get_self {MetaData} _.
Arguments get_world {MetaData} _.
Arguments file_exists {MetaData} _.
Arguments get_file_hash {MetaData} _.
Arguments file_changed {MetaData} _.
Arguments get_metadata {MetaData} _.
Arguments plugin_registry_clear {MetaData} _.

(* ================================================================== *)
(** ** A concrete process to run the methods on *)

Module Fixture.

(** Metadata kept as the pair of the plugin's file name and the raw
    attribute it was built from. *)
Definition Meta : Type := (string * PyObject)%type.

Definition builtin (name : string) : string * PyModule :=
  (name, {| module_name := name; module_dict := [] |}).

Definition hello_module : PyModule :=
  {| module_name := "plugins_hello_py";
     module_dict :=
       [ ("PLUGIN_METADATA", PyOther "{'id': 'hello'}");
         ("on_load", PyFunction "on_load");
         ("on_info", PyFunction "on_info");
         ("on_unload", PyStr "not a function");
         ("counter", PyInt 0) ] |}.

(** [sys.modules[name] = module] for each of the entries. *)
Definition add_modules (w : World) (new : dict PyModule) : World :=
  set_sys_modules w
    (fold_left (fun d kv => dict_set d (fst kv) (snd kv)) new (sys_modules w)).

(** A loader that knows two files: [plugins/hello.py] imports two modules
    and loads; [plugins/broken.py] imports a dependency and then fails. *)
Definition loader (path : string) (w : World) : World * Result PyModule :=
  if String.eqb path "plugins/hello.py" then
    (add_modules w [("plugins_hello_py", hello_module);
                    builtin "hello_helper"; builtin "hello_util"],
     Ok hello_module)
  else if String.eqb path "plugins/broken.py" then
    (add_modules w [builtin "broken_dep"],
     Raise (OtherException "SyntaxError" "invalid syntax"))
  else (w, Raise (OtherException "FileNotFoundError" path)).

Definition events : list PluginEvent :=
  [ {| event_id := "mcdr.plugin_loaded"; default_method_name := Some "on_load" |};
    {| event_id := "mcdr.general_info"; default_method_name := Some "on_info" |};
    {| event_id := "mcdr.plugin_unloaded"; default_method_name := Some "on_unload" |};
    {| event_id := "mcdr.user_info"; default_method_name := Some "on_user_info" |};
    {| event_id := "custom.event"; default_method_name := None |} ].

Definition ext : Collaborators Meta :=
  {| load_source := loader;
     MetaData_new := fun p data => (file_name p, data);
     get_event_list := events;
     DEFAULT_LISTENER_PRIORITY := 1000%Z;
     plugin_str := @__repr__ Meta;
     assert_state_message := fun p _ => __repr__ p ++ " state assertion failed" |}.

Definition world0 : World :=
  {| files :=
       [ ("plugins/hello.py", list_byte_of_string "def on_load(server, old): pass");
         ("plugins/broken.py", list_byte_of_string "def (") ];
     sys_modules := [builtin "sys"; builtin "os"];
     logger := [] |}.

Definition hello : Plugin Meta := __init__ Meta "plugins/hello.py".
Definition broken : Plugin Meta := __init__ Meta "plugins/broken.py".

(** The state after [hello.load()]. *)
Definition world1 : World := fst (fst (load ext (world0, hello))).
Definition hello_loaded : Plugin Meta := snd (fst (load ext (world0, hello))).

(** The state after [hello.load(); hello.ready()]. *)
Definition hello_ready : Plugin Meta := snd (fst (ready ext (world1, hello_loaded))).

(** After the load, some other actor drops [hello_helper] from [sys.modules]. *)
Definition world1_helper_gone : World :=
  set_sys_modules world1 (dict_remove (sys_modules world1) "hello_helper").

(** The state after [hello.load(); hello.ready(); hello.reload()]: the
    loader finds its three modules registered already. *)
Definition world2 : World := fst (fst (reload ext (world1, hello_ready))).
Definition hello_reloaded : Plugin Meta := snd (fst (reload ext (world1, hello_ready))).

(** A whole life: load, ready, unload, remove. *)
Definition whole_life : list Step :=
  [Invoke CallLoad; Invoke CallReady; Invoke CallUnload; Invoke CallRemove].
Definition world_end : World := fst (run_history ext whole_life (world0, hello)).
Definition hello_unloaded : Plugin Meta :=
  snd (run_history ext whole_life (world0, hello)).

(** A process in which [plugins/hello.py] does not exist. *)
Definition world_no_file : World :=
  {| files := []; sys_modules := [builtin "sys"]; logger := [] |}.

(** The source file is edited after the load. *)
Definition world1_edited : World :=
  {| files :=
       [ ("plugins/hello.py", list_byte_of_string "def on_load(server, old): return 1");
         ("plugins/broken.py", list_byte_of_string "def (") ];
     sys_modules := sys_modules world1;
     logger := logger world1 |}.

End Fixture.

(* ================================================================== *)
(** ** The digest on the test vectors of FIPS 180-2 *)

Example sha256_empty :
  SHA256.hexdigest [] =
  "e3b0c44298fc1c149afbf4c8996fb92427ae41e4649b934ca495991b7852b855".
Proof. vm_compute. reflexivity. Qed.

Example sha256_abc :
  SHA256.hexdigest ["a"%byte; "b"%byte; "c"%byte] =
  "ba7816bf8f01cfea414140de5dae2223b00361a396177a9cb410ff61f20015ad".
Proof. vm_compute. reflexivity. Qed.

Example sha256_two_blocks :
  SHA256.hexdigest
    (list_byte_of_string "abcdbcdecdefdefgefghfghighijhijkijkljklmklmnlmnomnopnopq") =
  "248d6a61d20638b8e5c026930c3e6039a33ce45964ff2167f6ecedd419db06c1".
Proof. vm_compute. reflexivity. Qed.

Ltac by_evaluation := vm_compute; reflexivity.

Ltac state_is_allowed := vm_compute; tauto.

(* ================================================================== *)
(** ** Facts about dictionaries and key lists *)

Section DictFacts.
Variable V : Type.
Implicit Types (d : dict V) (key k : string).

Lemma contains_In key (keys : list string) :
  contains key keys = true <-> In key keys.
Proof.
  unfold contains. rewrite existsb_exists. split.
  - intros [x [Hin Heq]]. apply String.eqb_eq in Heq. now subst.
  - intros Hin. exists key. split; [assumption | apply String.eqb_refl].
Qed.

Lemma contains_false key (keys : list string) :
  contains key keys = false <-> ~ In key keys.
Proof.
  rewrite <- contains_In. destruct (contains key keys); split; intros H;
    try reflexivity; try discriminate; try (intros H'; discriminate).
  exfalso. now apply H.
Qed.

Lemma dict_get_None d key :
  dict_get d key = None <-> ~ In key (dict_keys d).
Proof.
  induction d as [| [k v] rest IH]; simpl.
  - split; [intros _ [] | reflexivity].
  - destruct (String.eqb_spec key k) as [-> | Hne].
    + split; [discriminate | intros H; exfalso; apply H; now left].
    + rewrite IH. split.
      * intros H [Heq | Hin]; [now apply Hne | now apply H].
      * intros H Hin. apply H. now right.
Qed.

Lemma dict_get_contains d key :
  contains key (dict_keys d) = match dict_get d key with Some _ => true | None => false end.
Proof.
  destruct (dict_get d key) eqn:E.
  - apply contains_In. destruct (in_dec string_dec key (dict_keys d)) as [H | H];
      [assumption |]. apply dict_get_None in H. congruence.
  - apply contains_false. now apply dict_get_None.
Qed.

Lemma dict_remove_keys d key k :
  In k (dict_keys (dict_remove d key)) <-> In k (dict_keys d) /\ k <> key.
Proof.
  unfold dict_keys, dict_remove. rewrite !in_map_iff. split.
  - intros [[k' v] [Hk Hin]]. simpl in Hk. subst k'.
    apply filter_In in Hin. destruct Hin as [Hin Hneq]. simpl in Hneq.
    split.
    + exists (k, v). now split.
    + intros ->. rewrite String.eqb_refl in Hneq. discriminate.
  - intros [[[k' v] [Hk Hin]] Hne]. simpl in Hk. subst k'.
    exists (k, v). split; [reflexivity |]. apply filter_In. split; [assumption |].
    simpl. destruct (String.eqb_spec key k); [congruence | reflexivity].
Qed.

Lemma dict_remove_absent d key :
  dict_get d key = None -> dict_remove d key = d.
Proof.
  induction d as [| [k v] rest IH]; simpl; [reflexivity |].
  destruct (String.eqb_spec key k); [discriminate |].
  intros H. simpl. now rewrite IH.
Qed.

(** Popping the keys of [l] one after the other. *)
Lemma evicted_keys (l : list string) d k :
  In k (dict_keys (fold_left (@dict_remove V) l d)) <->
  In k (dict_keys d) /\ ~ In k l.
Proof.
  revert d. induction l as [| m rest IH]; intros d; simpl.
  - tauto.
  - rewrite IH, dict_remove_keys. split.
    + intros [[Hin Hne] Hrest]. split; [assumption |].
      intros [Heq | Hin']; [now apply Hne | now apply Hrest].
    + intros [Hin Hn]. repeat split; [assumption | |].
      * intros ->. apply Hn. now left.
      * intros Hin'. apply Hn. now right.
Qed.

Lemma dict_keys_NoDup_remove d key :
  NoDup (dict_keys d) -> NoDup (dict_keys (dict_remove d key)).
Proof.
  induction d as [| [k v] rest IH]; simpl; [intros; constructor |].
  intros H. inversion H as [| ? ? Hnotin Hnd]; subst.
  destruct (String.eqb key k); simpl; [now apply IH |].
  constructor; [| now apply IH].
  intros Hin. apply Hnotin. apply (dict_remove_keys rest key k) in Hin. tauto.
Qed.

Lemma dict_set_keys d key (value : V) :
  dict_keys (dict_set d key value) =
  if contains key (dict_keys d) then dict_keys d else (dict_keys d ++ [key])%list.
Proof.
  induction d as [| [k v] rest IH]; [reflexivity |].
  cbn [dict_set dict_keys map fst contains existsb] in *.
  destruct (String.eqb key k); [reflexivity |].
  cbn [map fst orb]. fold (dict_keys (dict_set rest key value)). rewrite IH.
  fold (dict_keys rest). fold (contains key (dict_keys rest)).
  destruct (contains key (dict_keys rest)); reflexivity.
Qed.

Lemma dict_set_keys_NoDup d key (value : V) :
  NoDup (dict_keys d) -> NoDup (dict_keys (dict_set d key value)).
Proof.
  intros H. rewrite dict_set_keys.
  destruct (contains key (dict_keys d)) eqn:E; [exact H |].
  apply contains_false in E. apply NoDup_app; [exact H | repeat constructor; intros [] |].
  intros k Hin [<- | []]. now apply E.
Qed.

End DictFacts.

(** The loader of the concrete process assigns entries of [sys.modules],
    which leaves it a [dict]. *)
Lemma fixture_loader_keeps_dict (path : string) (w : World) :
  registry_is_dict w -> registry_is_dict (fst (load_source Fixture.ext path w)).
Proof.
  assert (Hadd : forall new w0, registry_is_dict w0 ->
                                registry_is_dict (Fixture.add_modules w0 new)).
  { unfold registry_is_dict, Fixture.add_modules. intros new w0.
    cbn [sys_modules set_sys_modules]. generalize (sys_modules w0).
    induction new as [| [k v] rest IH]; intros d Hd; [exact Hd |].
    cbn [fold_left fst snd]. apply IH. now apply dict_set_keys_NoDup. }
  intros Hw. cbn [load_source Fixture.ext]. unfold Fixture.loader.
  destruct (String.eqb path "plugins/hello.py"); [now apply Hadd |].
  destruct (String.eqb path "plugins/broken.py"); [now apply Hadd | exact Hw].
Qed.

(** The comprehension keeps exactly the current keys that the snapshot
    does not have. *)
Lemma modules_not_in_In (previous current : dict PyModule) (module : string) :
  In module (modules_not_in previous current) <->
  In module (dict_keys current) /\ ~ In module (dict_keys previous).
Proof.
  unfold modules_not_in. rewrite filter_In, negb_true_iff, contains_false.
  reflexivity.
Qed.

Lemma modules_not_in_NoDup (previous current : dict PyModule) :
  NoDup (dict_keys current) -> NoDup (modules_not_in previous current).
Proof. intros H. unfold modules_not_in. now apply NoDup_filter. Qed.

(* ================================================================== *)
(** ** What each method does to the state *)

Section Runs.
Variable MetaData : Type.
Variable ext : Collaborators MetaData.
Implicit Types (w : World) (p : Plugin MetaData).

Lemma assert_state_run states w p :
  assert_state ext states (w, p) =
  ((w, p),
   if existsb (PluginState_eqb (state p)) states
   then Ok tt
   else Raise (IllegalCallError (assert_state_message ext p states))).
Proof.
  unfold assert_state, bind, get_self; simpl.
  destruct (existsb (PluginState_eqb (state p)) states); reflexivity.
Qed.

Lemma state_allowed (s : PluginState) (states : list PluginState) :
  existsb (PluginState_eqb s) states = true <-> In s states.
Proof.
  rewrite existsb_exists. split.
  - intros [x [Hin Heq]]. destruct s, x; try discriminate; assumption.
  - intros Hin. exists s. split; [assumption | now destruct s].
Qed.

Lemma get_file_hash_run w p :
  get_file_hash (w, p) = ((w, p), Ok (file_digest w (file_path p))).
Proof.
  unfold get_file_hash, file_exists, open_read, isfile, file_digest,
    bind, get_self, get_world, ret, raise.
  cbv beta iota delta [fst snd].
  destruct (dict_get (files w) (file_path p)) as [content |] eqn:E;
    cbv beta iota delta [fst snd]; rewrite ?E; reflexivity.
Qed.

Lemma file_changed_run w p :
  file_changed (w, p) =
  ((w, p), Ok (opt_str_neq (file_digest w (file_path p)) (file_hash p))).
Proof.
  unfold file_changed, bind. rewrite get_file_hash_run. reflexivity.
Qed.

Lemma load_instance_run w p :
  __load_instance ext (w, p) =
  match load_source ext (file_path p) w with
  | (w1, Ok m) => ((w1, after_load ext w p w1 m), Ok tt)
  | (w1, Raise e) => ((w1, after_failed_load w p w1), Raise e)
  end.
Proof.
  unfold __load_instance, with_GLOBAL_LOAD_LOCK.
  unfold bind at 1. rewrite get_file_hash_run.
  unfold bind, try_finally, call_load_source, update_self, get_self, get_world,
    plugin_registry_clear; simpl.
  destruct (load_source ext (file_path p) w) as [w1 [m | e]]; reflexivity.
Qed.

Lemma for_each_app {A} (l1 l2 : list A) (body : A -> Py MetaData unit) s :
  for_each (l1 ++ l2) body s =
  match for_each l1 body s with
  | (s', Ok _) => for_each l2 body s'
  | (s', Raise e) => (s', Raise e)
  end.
Proof.
  revert s. induction l1 as [| x rest IH]; intros s; simpl.
  - reflexivity.
  - unfold bind. destruct (body x s) as [s1 [[] | e]]; [apply IH | reflexivity].
Qed.

Lemma load_run w p :
  load ext (w, p) =
  if existsb (PluginState_eqb (state p)) [UNINITIALIZED] then
    match load_source ext (file_path p) w with
    | (w1, Ok m) =>
        let p' := after_load ext w p w1 m in
        ((emit w1 {| log_level := DEBUG;
                     log_message :=
                       "Plugin " ++ plugin_str ext p' ++ " loaded from " ++ file_path p'
                         ++ ", file sha256 = " ++ str_opt (file_hash p') |},
          with_state p' LOADED), Ok tt)
    | (w1, Raise e) => ((w1, after_failed_load w p w1), Raise e)
    end
  else ((w, p), Raise (IllegalCallError (assert_state_message ext p [UNINITIALIZED]))).
Proof.
  unfold load. unfold bind at 1. rewrite assert_state_run.
  destruct (existsb (PluginState_eqb (state p)) [UNINITIALIZED]); [| reflexivity].
  unfold bind at 1. rewrite load_instance_run.
  destruct (load_source ext (file_path p) w) as [w1 [m | e]]; reflexivity.
Qed.

Lemma reload_run w p :
  reload ext (w, p) =
  if existsb (PluginState_eqb (state p)) [LOADED; READY] then
    match load_source ext (file_path p) w with
    | (w1, Ok m) =>
        let p' := after_load ext w p w1 m in
        ((emit w1 {| log_level := DEBUG;
                     log_message :=
                       "RegularPlugin " ++ plugin_str ext p'
                         ++ " reloaded, file sha256 = " ++ str_opt (file_hash p') |},
          p'), Ok tt)
    | (w1, Raise e) => ((w1, after_failed_load w p w1), Raise e)
    end
  else ((w, p), Raise (IllegalCallError (assert_state_message ext p [LOADED; READY]))).
Proof.
  unfold reload. unfold bind at 1. rewrite assert_state_run.
  destruct (existsb (PluginState_eqb (state p)) [LOADED; READY]); [| reflexivity].
  unfold bind at 1. rewrite load_instance_run.
  destruct (load_source ext (file_path p) w) as [w1 [m | e]]; reflexivity.
Qed.

(** The eviction loop of [unload]: it never raises, pops every listed key,
    and writes one record per listed module. *)
Lemma unload_loop_run (l : list string) : forall w p,
  for_each l (fun module =>
    try_except_KeyError_else
      (sys_modules_pop module)
      (bind get_self (fun self =>
         logger_critical ("Module " ++ module ++ " not found when unloading plugin "
                            ++ __repr__ self)))
      (bind get_self (fun self =>
         logger_debug ("Removed module " ++ module ++ " when unloading plugin "
                         ++ __repr__ self)))) (w, p) =
  (({| files := files w;
       sys_modules := fold_left (@dict_remove PyModule) l (sys_modules w);
       logger := logger w ++ unload_records p l (sys_modules w) |}, p), Ok tt).
Proof.
  induction l as [| module rest IH]; intros w p.
  - simpl. rewrite app_nil_r. destruct w; reflexivity.
  - cbn [for_each]. unfold bind at 1.
    unfold try_except_KeyError_else at 1, sys_modules_pop at 1, dict_pop.
    cbn [fst snd unload_records fold_left].
    rewrite dict_get_contains.
    destruct (dict_get (sys_modules w) module) as [m |] eqn:E.
    + unfold bind at 1, get_self at 1, logger_debug at 1, update_world.
      cbn [fst snd]. rewrite IH. cbn [files sys_modules logger emit set_sys_modules].
      rewrite <- app_assoc. reflexivity.
    + unfold bind at 1, get_self at 1, logger_critical at 1, update_world.
      cbn [fst snd]. rewrite IH. cbn [files sys_modules logger emit].
      rewrite (dict_remove_absent _ _ E), <- app_assoc. reflexivity.
Qed.

Lemma unload_run w p :
  unload ext (w, p) =
  if existsb (PluginState_eqb (state p)) [UNINITIALIZED; LOADED; READY] then
    (({| files := files w;
         sys_modules :=
           fold_left (@dict_remove PyModule) (newly_loaded_module p) (sys_modules w);
         logger := logger w ++ unload_records p (newly_loaded_module p) (sys_modules w) |},
      with_state (with_newly_loaded_module p []) UNLOADING), Ok tt)
  else ((w, p),
        Raise (IllegalCallError
                 (assert_state_message ext p [UNINITIALIZED; LOADED; READY]))).
Proof.
  unfold unload. unfold bind at 1. rewrite assert_state_run.
  destruct (existsb (PluginState_eqb (state p)) [UNINITIALIZED; LOADED; READY]);
    [| reflexivity].
  unfold with_GLOBAL_LOAD_LOCK.
  unfold bind at 1. unfold bind at 1. unfold get_self at 1. cbn [fst snd].
  unfold bind at 1. rewrite unload_loop_run. reflexivity.
Qed.

Lemma listeners_for_registry p r (events : list PluginEvent) :
  listeners_for ext (with_plugin_registry p r) events = listeners_for ext p events.
Proof. reflexivity. Qed.

Lemma with_plugin_registry_twice p r1 r2 :
  with_plugin_registry (with_plugin_registry p r1) r2 = with_plugin_registry p r2.
Proof. reflexivity. Qed.

(** The loop of [__register_default_listeners] over any list of events. *)
Lemma register_loop_run (events : list PluginEvent) : forall w p,
  for_each events (fun event =>
    match default_method_name event with
    | Some name =>
        bind get_self (fun self =>
          let func := getattr (module_instance self) name PyNone in
          if callable func
          then add_event_listener event
                 {| listener_plugin := file_path self;
                    listener_callback := func;
                    listener_priority := DEFAULT_LISTENER_PRIORITY ext |}
          else ret tt)
    | None => ret tt
    end) (w, p) =
  ((w, with_plugin_registry p (plugin_registry p ++ listeners_for ext p events)), Ok tt).
Proof.
  induction events as [| event rest IH]; intros w p.
  - simpl. rewrite app_nil_r. destruct p; reflexivity.
  - cbn [for_each listeners_for flat_map]. unfold bind at 1.
    destruct (default_method_name event) as [name |].
    + unfold bind at 1, get_self at 1. cbn [fst snd].
      destruct (callable (getattr (module_instance p) name PyNone)).
      * unfold add_event_listener, update_self. cbn [fst snd].
        rewrite IH. rewrite with_plugin_registry_twice.
        cbn [plugin_registry with_plugin_registry].
        rewrite <- app_assoc. reflexivity.
      * unfold ret at 1. rewrite IH. reflexivity.
    + unfold ret at 1. rewrite IH. reflexivity.
Qed.

Lemma ready_run w p :
  ready ext (w, p) =
  if existsb (PluginState_eqb (state p)) [LOADED; READY] then
    ((w, with_state
           (with_plugin_registry p (plugin_registry p ++ default_listeners ext p))
           READY), Ok tt)
  else ((w, p), Raise (IllegalCallError (assert_state_message ext p [LOADED; READY]))).
Proof.
  unfold ready. unfold bind at 1. rewrite assert_state_run.
  destruct (existsb (PluginState_eqb (state p)) [LOADED; READY]); [| reflexivity].
  unfold bind at 1. unfold __register_default_listeners.
  rewrite register_loop_run. reflexivity.
Qed.

Lemma remove_run w p :
  remove ext (w, p) =
  if existsb (PluginState_eqb (state p)) [UNLOADING]
  then ((w, with_state p UNLOADED), Ok tt)
  else ((w, p), Raise (IllegalCallError (assert_state_message ext p [UNLOADING]))).
Proof.
  unfold remove. unfold bind. rewrite assert_state_run.
  destruct (existsb (PluginState_eqb (state p)) [UNLOADING]); reflexivity.
Qed.

Lemma get_metadata_run w p :
  get_metadata (w, p) =
  ((w, p),
   match __metadata p with
   | Some m => Ok m
   | None =>
       Raise (IllegalCallError
                ("Meta data of plugin " ++ __repr__ p
                   ++ " is not loaded. Plugin state = " ++ PluginState_str (state p)))
   end).
Proof.
  unfold get_metadata, bind, get_self. cbn [fst snd].
  destruct (__metadata p); reflexivity.
Qed.

End Runs.

(* ================================================================== *)
(** ** Properties of the life cycle *)

Section Lifecycle.
Variable MetaData : Type.
Variable ext : Collaborators MetaData.
Implicit Types (w : World) (p : Plugin MetaData).

Lemma allowed_true p (states : list PluginState) :
  In (state p) states -> existsb (PluginState_eqb (state p)) states = true.
Proof. apply state_allowed. Qed.

(** The records of the eviction loop that are critical: one per listed
    module that the registry did not hold, in list order. *)
Lemma unload_records_criticals p (l : list string) : forall d : dict PyModule,
  NoDup l ->
  criticals (unload_records p l d) =
  map (not_found_record p)
      (filter (fun module => negb (contains module (dict_keys d))) l).
Proof.
  induction l as [| module rest IH]; intros d Hnd; [reflexivity |].
  inversion Hnd as [| ? ? Hnotin Hrest]; subst.
  assert (Hsame :
    filter (fun m => negb (contains m (dict_keys (dict_remove d module)))) rest =
    filter (fun m => negb (contains m (dict_keys d))) rest).
  { apply filter_ext_in. intros m Hin. f_equal.
    destruct (contains m (dict_keys d)) eqn:E.
    - apply contains_In. apply dict_remove_keys. split.
      + now apply contains_In.
      + intros ->. now apply Hnotin.
    - apply contains_false. intros H. apply dict_remove_keys in H.
      apply contains_false in E. tauto. }
  cbn [unload_records filter]. unfold criticals in *. cbn [filter].
  destruct (contains module (dict_keys d)); cbn [negb removed_record not_found_record
    log_level LogLevel_eqb map]; rewrite IH, Hsame by assumption; reflexivity.
Qed.

(** C1. After [__load_instance], whether [load_source] returned or raised,
    [newly_loaded_module] is exactly the keys of [sys.modules] after the
    load that the snapshot taken before it did not have; the value stored
    before the call plays no part. *)
Theorem load_instance_records_new_modules w p w' p' (r : Result unit) :
  __load_instance ext (w, p) = ((w', p'), r) ->
  newly_loaded_module p' = modules_not_in (sys_modules w) (sys_modules w')
  /\ (forall module,
        In module (newly_loaded_module p') <->
        In module (dict_keys (sys_modules w')) /\ ~ In module (dict_keys (sys_modules w)))
  /\ (forall previous,
        newly_loaded_module
          (snd (fst (__load_instance ext (w, with_newly_loaded_module p previous))))
        = newly_loaded_module p').
Proof.
  intros Hrun.
  assert (Hdiff : newly_loaded_module p' =
                  modules_not_in (sys_modules w) (sys_modules w')).
  { rewrite load_instance_run in Hrun.
    destruct (load_source ext (file_path p) w) as [w1 [m | e]];
      inversion Hrun; subst; reflexivity. }
  split; [exact Hdiff |]. split.
  - intros module. rewrite Hdiff. apply modules_not_in_In.
  - intros previous. rewrite load_instance_run. rewrite load_instance_run in Hrun.
    cbn [file_path with_newly_loaded_module].
    destruct (load_source ext (file_path p) w) as [w1 [m | e]];
      inversion Hrun; subst; reflexivity.
Qed.

(** C2. From [UNINITIALIZED], [LOADED] or [READY], [unload] returns; none of
    the modules listed in [newly_loaded_module] before the call is a key of
    [sys.modules] afterwards, the other keys are as they were, and the list
    is empty afterwards. *)
Theorem unload_evicts_recorded_modules w p :
  In (state p) [UNINITIALIZED; LOADED; READY] ->
  exists w' p',
    unload ext (w, p) = ((w', p'), Ok tt)
    /\ (forall module, In module (newly_loaded_module p) ->
                       ~ In module (dict_keys (sys_modules w')))
    /\ (forall key, ~ In key (newly_loaded_module p) ->
                    (In key (dict_keys (sys_modules w')) <->
                     In key (dict_keys (sys_modules w))))
    /\ newly_loaded_module p' = [].
Proof.
  intros Hstate. rewrite unload_run, (allowed_true _ _ Hstate).
  eexists _, _. split; [reflexivity |]. cbn [sys_modules]. repeat split.
  - intros module Hin Hkey. apply evicted_keys in Hkey. tauto.
  - intros Hkey. apply evicted_keys in Hkey. tauto.
  - intros Hkey. apply evicted_keys. tauto.
Qed.

Lemma evicted_is_dict (l : list string) : forall d : dict PyModule,
  NoDup (dict_keys d) -> NoDup (dict_keys (fold_left (@dict_remove PyModule) l d)).
Proof.
  induction l as [| module rest IH]; intros d Hd; [exact Hd |].
  cbn [fold_left]. apply IH. now apply dict_keys_NoDup_remove.
Qed.

(** [newly_loaded_module] is duplicate-free in every state a plugin can
    reach, as long as the loader and the other actors leave [sys.modules] a
    [dict]: each method keeps both facts. *)
Lemma invoke_keeps_set (c : Call) w p :
  (forall path w0, registry_is_dict w0 ->
                   registry_is_dict (fst (load_source ext path w0))) ->
  registry_is_dict w ->
  NoDup (newly_loaded_module p) ->
  registry_is_dict (fst (fst (invoke ext c (w, p))))
  /\ NoDup (newly_loaded_module (snd (fst (invoke ext c (w, p))))).
Proof.
  intros Hloader Hw Hp.
  pose proof (Hloader (file_path p) w Hw) as Hw1.
  destruct c; cbn [invoke].
  - rewrite load_run. destruct (existsb _ _); [| now split].
    destruct (load_source ext (file_path p) w) as [w1 [m | e]]; cbn [fst snd] in *;
      (split; [exact Hw1 | now apply modules_not_in_NoDup]).
  - rewrite ready_run. destruct (existsb _ _); now split.
  - rewrite reload_run. destruct (existsb _ _); [| now split].
    destruct (load_source ext (file_path p) w) as [w1 [m | e]]; cbn [fst snd] in *;
      (split; [exact Hw1 | now apply modules_not_in_NoDup]).
  - rewrite unload_run. destruct (existsb _ _); [| now split].
    split; [now apply evicted_is_dict | constructor].
  - rewrite remove_run. destruct (existsb _ _); now split.
Qed.

Lemma history_keeps_set (h : list Step) : forall s : World * Plugin MetaData,
  (forall path w0, registry_is_dict w0 ->
                   registry_is_dict (fst (load_source ext path w0))) ->
  outside_keeps_dict h ->
  registry_is_dict (fst s) ->
  NoDup (newly_loaded_module (snd s)) ->
  NoDup (newly_loaded_module (snd (run_history ext h s))).
Proof.
  induction h as [| [c | change] rest IH]; intros [w p] Hloader Hout Hw Hp;
    cbn [run_history outside_keeps_dict fst snd] in *.
  - exact Hp.
  - destruct (@invoke_keeps_set c w p Hloader Hw Hp) as [Hw' Hp'].
    destruct (invoke ext c (w, p)) as [[w' p'] r]. now apply IH.
  - destruct Hout as [Hchange Hout]. apply IH; try assumption. now apply Hchange.
Qed.

(** C4. When some of the modules listed in [newly_loaded_module] (a list
    without repetition, see [history_keeps_set]) are already missing from
    [sys.modules], [unload] still returns and moves to [UNLOADING]; every
    listed module is gone afterwards; and the critical records it writes are
    exactly one "not found" record per listed module that was missing, in
    list order. *)
Theorem unload_tolerates_missing_modules w p :
  In (state p) [UNINITIALIZED; LOADED; READY] ->
  NoDup (newly_loaded_module p) ->
  exists w' p' records,
    unload ext (w, p) = ((w', p'), Ok tt)
    /\ state p' = UNLOADING
    /\ (forall module, In module (newly_loaded_module p) ->
                       ~ In module (dict_keys (sys_modules w')))
    /\ logger w' = (logger w ++ records)%list
    /\ criticals records =
       map (not_found_record p)
           (filter (fun module => negb (contains module (dict_keys (sys_modules w))))
                   (newly_loaded_module p)).
Proof.
  intros Hstate Hnd. rewrite unload_run, (allowed_true _ _ Hstate).
  eexists _, _, _. split; [reflexivity |]. cbn [sys_modules logger].
  repeat split.
  - intros module Hin Hkey. apply evicted_keys in Hkey. tauto.
  - now apply unload_records_criticals.
Qed.

(** C5. On a plugin in state [READY], [load] raises [IllegalCallError] and
    leaves the process state and every field of the plugin as they were. *)
Theorem load_when_ready_is_illegal w p :
  state p = READY ->
  exists msg, load ext (w, p) = ((w, p), Raise (IllegalCallError msg)).
Proof.
  intros Hstate. rewrite load_run, Hstate. cbn. eexists. reflexivity.
Qed.

(** C3, as the code has it.  When [load_source] raises inside a permitted
    [load] or [reload], the call raises that same exception;
    [newly_loaded_module] is the difference of [sys.modules] all the same;
    [module_instance], the metadata, the state and the listeners are as
    before the call.  [file_hash] is not kept: it was assigned before the
    loader ran and holds the digest of the file as it was when the call
    started. *)
Theorem failed_load_keeps_module_and_metadata w p w1 (e : Exception)
        (run : (World * Plugin MetaData) * Result unit) :
  load_source ext (file_path p) w = (w1, Raise e) ->
  (state p = UNINITIALIZED /\ run = load ext (w, p))
  \/ (In (state p) [LOADED; READY] /\ run = reload ext (w, p)) ->
  exists p',
    run = ((w1, p'), Raise e)
    /\ newly_loaded_module p' = modules_not_in (sys_modules w) (sys_modules w1)
    /\ module_instance p' = module_instance p
    /\ __metadata p' = __metadata p
    /\ file_hash p' = file_digest w (file_path p)
    /\ state p' = state p
    /\ plugin_registry p' = plugin_registry p.
Proof.
  intros Hload [[Hstate ->] | [Hstate ->]].
  - rewrite load_run, Hstate, Hload. cbn [existsb PluginState_eqb orb].
    eexists. split; [reflexivity |]. repeat split. exact Hstate.
  - rewrite reload_run, (allowed_true _ _ Hstate), Hload.
    eexists. split; [reflexivity |]. repeat split.
Qed.

(** C6. After a [load] or [reload] that returned, [file_hash] is the
    SHA-256 of the whole content the file had when the call started (and
    [None] had there been no file). *)
Theorem file_hash_after_load w p w' p' :
  load ext (w, p) = ((w', p'), Ok tt) \/ reload ext (w, p) = ((w', p'), Ok tt) ->
  file_hash p' = file_digest w (file_path p)
  /\ (forall content,
        dict_get (files w) (file_path p) = Some content ->
        file_hash p' = Some (SHA256.hexdigest content)).
Proof.
  intros Hrun.
  assert (H : file_hash p' = file_digest w (file_path p)).
  { destruct Hrun as [Hrun | Hrun]; [rewrite load_run in Hrun | rewrite reload_run in Hrun];
      destruct (existsb _ _); try discriminate;
      destruct (load_source ext (file_path p) w) as [w1 [m | e]]; try discriminate;
      inversion Hrun; subst; reflexivity. }
  split; [exact H |]. intros content Hfile. rewrite H. unfold file_digest.
  now rewrite Hfile.
Qed.

(** [reload] never touches the state, however it ends. *)
Lemma reload_state w p :
  state (snd (fst (reload ext (w, p)))) = state p.
Proof.
  rewrite reload_run. destruct (existsb _ _); [| reflexivity].
  destruct (load_source ext (file_path p) w) as [w1 [m | e]]; reflexivity.
Qed.

(** [reload] returns whenever the state permits it and the loader returns. *)
Lemma reload_returns w p w1 (m : PyModule) :
  In (state p) [LOADED; READY] ->
  load_source ext (file_path p) w = (w1, Ok m) ->
  exists w' p', reload ext (w, p) = ((w', p'), Ok tt).
Proof.
  intros Hstate Hload. rewrite reload_run, (allowed_true _ _ Hstate), Hload.
  eexists _, _. reflexivity.
Qed.

(** C7. A [reload] that returned, on a plugin in state [LOADED] or [READY],
    leaves the state as it was. *)
Theorem reload_keeps_state w p w' p' :
  In (state p) [LOADED; READY] ->
  reload ext (w, p) = ((w', p'), Ok tt) ->
  state p' = state p.
Proof.
  intros _ Hrun. rewrite <- (reload_state w p), Hrun. reflexivity.
Qed.

Lemma opt_str_neq_true (a b : option string) :
  opt_str_neq a b = true <-> a <> b.
Proof.
  destruct a as [x |], b as [y |]; simpl.
  - rewrite negb_true_iff. destruct (String.eqb_spec x y); split; intros H;
      congruence.
  - split; [discriminate | reflexivity].
  - split; [discriminate | reflexivity].
  - split; [discriminate | intros H; now exfalso].
Qed.

(** C8. [file_changed] changes nothing, so that a second call, or any call
    that finds the same bytes in the file and the same stored hash, returns
    the same boolean; and the boolean is [true] exactly when the digest it
    recomputes differs from the stored hash, in particular after the bytes
    were modified into ones of another digest. *)
Theorem file_changed_stable w1 p1 w2 p2 :
  dict_get (files w1) (file_path p1) = dict_get (files w2) (file_path p2) ->
  file_hash p1 = file_hash p2 ->
  exists b : bool,
    file_changed (w1, p1) = ((w1, p1), Ok b)
    /\ file_changed (w2, p2) = ((w2, p2), Ok b)
    /\ (b = true <-> file_digest w1 (file_path p1) <> file_hash p1)
    /\ (forall old new,
          file_hash p1 = Some (SHA256.hexdigest old) ->
          dict_get (files w1) (file_path p1) = Some new ->
          (b = true <-> SHA256.hexdigest new <> SHA256.hexdigest old)).
Proof.
  intros Hfile Hhash. rewrite !file_changed_run.
  exists (opt_str_neq (file_digest w1 (file_path p1)) (file_hash p1)).
  split; [reflexivity |]. split.
  { unfold file_digest. now rewrite Hfile, Hhash. }
  split; [apply opt_str_neq_true |].
  intros old new Hold Hnew. rewrite opt_str_neq_true.
  unfold file_digest. rewrite Hold, Hnew. cbn [option_map].
  split; intros H; congruence.
Qed.

Lemma listeners_for_In p (events : list PluginEvent) event (listener : EventListener) :
  In (event, listener) (listeners_for ext p events) <->
  In event events
  /\ exists name,
       default_method_name event = Some name
       /\ callable (getattr (module_instance p) name PyNone) = true
       /\ listener = default_listener ext p (getattr (module_instance p) name PyNone).
Proof.
  unfold listeners_for. rewrite in_flat_map. split.
  - intros [ev [Hin Hentry]].
    destruct (default_method_name ev) as [name |] eqn:Hname; [| destruct Hentry].
    cbv zeta in Hentry.
    destruct (callable (getattr (module_instance p) name PyNone)) eqn:Hcall;
      [| destruct Hentry].
    destruct Hentry as [Heq | []]. inversion Heq; subst.
    split; [assumption |]. exists name. repeat split; assumption.
  - intros [Hin [name [Hname [Hcall ->]]]].
    exists event. split; [assumption |]. rewrite Hname. cbv zeta. rewrite Hcall.
    now left.
Qed.

(** C9. From [LOADED] or [READY], [ready] returns in state [READY] and
    appends to the plugin's listeners one listener per catalog event whose
    default handler name is a callable attribute of the loaded module, at
    [DEFAULT_LISTENER_PRIORITY]; it removes none, and a second [ready]
    appends the same listeners once more. *)
Theorem ready_registers_default_listeners w p :
  In (state p) [LOADED; READY] ->
  exists p',
    ready ext (w, p) = ((w, p'), Ok tt)
    /\ state p' = READY
    /\ plugin_registry p' = (plugin_registry p ++ default_listeners ext p)%list
    /\ (forall event name m func,
          In event (get_event_list ext) ->
          default_method_name event = Some name ->
          module_instance p = Some m ->
          dict_get (module_dict m) name = Some func ->
          callable func = true ->
          In (event,
              {| listener_plugin := file_path p;
                 listener_callback := func;
                 listener_priority := DEFAULT_LISTENER_PRIORITY ext |})
             (plugin_registry p'))
    /\ (forall entry, In entry (default_listeners ext p) ->
                      In (fst entry) (get_event_list ext)
                      /\ callable (listener_callback (snd entry)) = true
                      /\ listener_priority (snd entry) = DEFAULT_LISTENER_PRIORITY ext)
    /\ (forall entry, In entry (plugin_registry p) -> In entry (plugin_registry p'))
    /\ exists p'',
         ready ext (w, p') = ((w, p''), Ok tt)
         /\ plugin_registry p'' =
            (plugin_registry p ++ default_listeners ext p ++ default_listeners ext p)%list.
Proof.
  intros Hstate. rewrite ready_run, (allowed_true _ _ Hstate).
  eexists. split; [reflexivity |].
  cbn [state plugin_registry with_state with_plugin_registry].
  split; [reflexivity |]. split; [reflexivity |]. split; [| split; [| split]].
  - intros event name m func Hin Hname Hmod Hattr Hcall.
    apply in_or_app. right. apply listeners_for_In. split; [assumption |].
    exists name. unfold getattr. rewrite Hmod, Hattr. repeat split; assumption.
  - intros [event listener] Hin. apply listeners_for_In in Hin.
    destruct Hin as [Hin [name [Hname [Hcall ->]]]]. repeat split; assumption.
  - intros entry Hin. apply in_or_app. now left.
  - rewrite ready_run. cbn [existsb PluginState_eqb orb state with_state].
    eexists. split; [reflexivity |].
    cbn [plugin_registry with_state with_plugin_registry].
    rewrite <- app_assoc. reflexivity.
Qed.

(** Only a [load] or [reload] that returns assigns the metadata. *)
Lemma invoke_metadata (c : Call) w p :
  match c, snd (invoke ext c (w, p)) with
  | CallLoad, Ok _ | CallReload, Ok _ => False
  | _, _ => True
  end ->
  __metadata (snd (fst (invoke ext c (w, p)))) = __metadata p.
Proof.
  destruct c; cbn [invoke].
  - rewrite load_run. destruct (existsb _ _); [| reflexivity].
    destruct (load_source ext (file_path p) w) as [w1 [m | e]];
      [intros [] | reflexivity].
  - rewrite ready_run. destruct (existsb _ _); reflexivity.
  - rewrite reload_run. destruct (existsb _ _); [| reflexivity].
    destruct (load_source ext (file_path p) w) as [w1 [m | e]];
      [intros [] | reflexivity].
  - rewrite unload_run. destruct (existsb _ _); reflexivity.
  - rewrite remove_run. destruct (existsb _ _); reflexivity.
Qed.

Lemma history_keeps_metadata (h : list Step) : forall s : World * Plugin MetaData,
  no_load_completed ext h s ->
  __metadata (snd (run_history ext h s)) = __metadata (snd s).
Proof.
  induction h as [| [c | change] rest IH]; intros [w p] Hno; [reflexivity | |].
  - cbn [run_history no_load_completed] in *. destruct Hno as [Hc Hrest].
    rewrite (IH _ Hrest). now apply invoke_metadata.
  - cbn [run_history no_load_completed] in *. now rewrite (IH _ Hno).
Qed.

(** C10. [get_metadata] raises [IllegalCallError] while the metadata field
    is unset, which is the case for a plugin on which no [load] or [reload]
    has returned yet; after a [load] or [reload] that returned it returns
    the [MetaData] that call built from the [PLUGIN_METADATA] attribute of
    the loaded module. *)
Theorem get_metadata_requires_load :
  (forall w p,
     __metadata p = None ->
     exists msg, get_metadata (w, p) = ((w, p), Raise (IllegalCallError msg)))
  /\ (forall path (h : list Step) w,
        no_load_completed ext h (w, __init__ MetaData path) ->
        exists msg,
          snd (get_metadata (run_history ext h (w, __init__ MetaData path)))
          = Raise (IllegalCallError msg))
  /\ (forall w p w' p',
        load ext (w, p) = ((w', p'), Ok tt) \/ reload ext (w, p) = ((w', p'), Ok tt) ->
        get_metadata (w', p') =
        ((w', p'),
         Ok (MetaData_new ext
               (with_state
                  (with_plugin_registry (with_metadata p' (__metadata p))
                                        (plugin_registry p))
                  (state p))
               (getattr (module_instance p') "PLUGIN_METADATA" PyNone)))).
Proof.
  split; [| split].
  - intros w p Hnone. rewrite get_metadata_run, Hnone. eexists. reflexivity.
  - intros path h w Hno.
    pose proof (history_keeps_metadata h _ Hno) as Hmeta. cbn [snd __init__ __metadata] in Hmeta.
    destruct (run_history ext h (w, __init__ MetaData path)) as [w' p'].
    cbn [snd] in Hmeta. rewrite get_metadata_run, Hmeta. eexists. reflexivity.
  - intros w p w' p' Hrun. rewrite get_metadata_run.
    destruct Hrun as [Hrun | Hrun]; [rewrite load_run in Hrun | rewrite reload_run in Hrun];
      destruct (existsb _ _); try discriminate;
      destruct (load_source ext (file_path p) w) as [w1 [m | e]]; try discriminate;
      inversion Hrun; subst; reflexivity.
Qed.

End Lifecycle.

(* ================================================================== *)
(** ** The properties on the concrete process *)

(** A failing [__load_instance] still records the module the loader had
    imported before it raised. *)
Lemma load_instance_records_new_modules_on_broken :
  exists w' p' r,
    __load_instance Fixture.ext (Fixture.world0, Fixture.broken) = ((w', p'), r)
    /\ r = Raise (OtherException "SyntaxError" "invalid syntax")
    /\ newly_loaded_module p' = ["broken_dep"]
    /\ newly_loaded_module p' =
       modules_not_in (sys_modules Fixture.world0) (sys_modules w').
Proof.
  pose (out := __load_instance Fixture.ext (Fixture.world0, Fixture.broken)).
  assert (E : __load_instance Fixture.ext (Fixture.world0, Fixture.broken)
              = ((fst (fst out), snd (fst out)), snd out)) by by_evaluation.
  exists (fst (fst out)), (snd (fst out)), (snd out).
  split; [exact E |]. split; [by_evaluation |]. split; [by_evaluation |].
  exact (proj1 (load_instance_records_new_modules _ _ _ E)).
Defined.

(** Unloading the loaded and readied plugin drops its three modules. *)
Lemma unload_evicts_recorded_modules_on_hello :
  In (state Fixture.hello_ready) [UNINITIALIZED; LOADED; READY]
  /\ newly_loaded_module Fixture.hello_ready =
     ["plugins_hello_py"; "hello_helper"; "hello_util"]
  /\ exists w' p',
       unload Fixture.ext (Fixture.world1, Fixture.hello_ready) = ((w', p'), Ok tt)
       /\ (forall module, In module (newly_loaded_module Fixture.hello_ready) ->
                          ~ In module (dict_keys (sys_modules w')))
       /\ (forall key, ~ In key (newly_loaded_module Fixture.hello_ready) ->
                       (In key (dict_keys (sys_modules w')) <->
                        In key (dict_keys (sys_modules Fixture.world1))))
       /\ newly_loaded_module p' = [].
Proof.
  split; [state_is_allowed |]. split; [by_evaluation |].
  apply (unload_evicts_recorded_modules Fixture.ext Fixture.world1 Fixture.hello_ready).
  state_is_allowed.
Defined.

(** The claim C3 fails on [file_hash]: the load of the broken file raises
    what the loader raised, and the hash, unset before the call, is set
    after it. *)
Lemma failed_load_replaces_file_hash :
  exists w' p',
    load Fixture.ext (Fixture.world0, Fixture.broken)
    = ((w', p'), Raise (OtherException "SyntaxError" "invalid syntax"))
    /\ snd (load_source Fixture.ext (file_path Fixture.broken) Fixture.world0)
       = Raise (OtherException "SyntaxError" "invalid syntax")
    /\ file_hash Fixture.broken = None
    /\ file_hash p' =
       Some "d23f5586dbb8286f29dd79b47a6a6a284412b1c31ac03b2122e147315a263907"
    /\ file_hash p' <> file_hash Fixture.broken.
Proof.
  pose (out := load Fixture.ext (Fixture.world0, Fixture.broken)).
  exists (fst (fst out)), (snd (fst out)).
  split; [by_evaluation |]. split; [by_evaluation |]. split; [by_evaluation |].
  split; [by_evaluation |]. vm_compute. discriminate.
Defined.

Lemma failed_load_keeps_module_and_metadata_on_broken :
  load_source Fixture.ext (file_path Fixture.broken) Fixture.world0
  = (Fixture.add_modules Fixture.world0 [Fixture.builtin "broken_dep"],
     Raise (OtherException "SyntaxError" "invalid syntax"))
  /\ state Fixture.broken = UNINITIALIZED
  /\ exists p',
       load Fixture.ext (Fixture.world0, Fixture.broken)
       = ((Fixture.add_modules Fixture.world0 [Fixture.builtin "broken_dep"], p'),
          Raise (OtherException "SyntaxError" "invalid syntax"))
       /\ newly_loaded_module p' = ["broken_dep"]
       /\ module_instance p' = None
       /\ __metadata p' = None
       /\ file_hash p' = file_digest Fixture.world0 "plugins/broken.py".
Proof.
  split; [by_evaluation |]. split; [reflexivity |].
  destruct (failed_load_keeps_module_and_metadata Fixture.ext
              Fixture.world0 Fixture.broken
              (w1 := Fixture.add_modules Fixture.world0 [Fixture.builtin "broken_dep"])
              (e := OtherException "SyntaxError" "invalid syntax")
              (run := load Fixture.ext (Fixture.world0, Fixture.broken)))
    as [p' [Hrun [Hnew [Hmod [Hmeta [Hhash _]]]]]].
  - by_evaluation.
  - left. split; reflexivity.
  - exists p'. split; [exact Hrun |]. split; [rewrite Hnew; by_evaluation |].
    split; [exact Hmod |]. split; [exact Hmeta | exact Hhash].
Defined.

(** The scenario of the specification: of the three recorded modules the
    second was dropped by someone else; [unload] removes the other two and
    writes one critical record, for the second. *)
Lemma unload_tolerates_missing_modules_on_hello :
  In (state Fixture.hello_ready) [UNINITIALIZED; LOADED; READY]
  /\ NoDup (newly_loaded_module Fixture.hello_ready)
  /\ dict_keys (sys_modules Fixture.world1_helper_gone)
     = ["sys"; "os"; "plugins_hello_py"; "hello_util"]
  /\ exists w' p' records,
       unload Fixture.ext (Fixture.world1_helper_gone, Fixture.hello_ready)
       = ((w', p'), Ok tt)
       /\ state p' = UNLOADING
       /\ dict_keys (sys_modules w') = ["sys"; "os"]
       /\ logger w' = (logger Fixture.world1_helper_gone ++ records)%list
       /\ criticals records = [not_found_record Fixture.hello_ready "hello_helper"].
Proof.
  assert (Hstate : In (state Fixture.hello_ready) [UNINITIALIZED; LOADED; READY])
    by state_is_allowed.
  assert (Hnd : NoDup (newly_loaded_module Fixture.hello_ready)).
  { vm_compute. repeat constructor; simpl; intuition discriminate. }
  split; [exact Hstate |]. split; [exact Hnd |]. split; [by_evaluation |].
  destruct (unload_tolerates_missing_modules Fixture.ext
              Fixture.world1_helper_gone Fixture.hello_ready Hstate Hnd)
    as [w' [p' [records [Hrun [Hst [_ [Hlog Hcrit]]]]]]].
  exists w', p', records. split; [exact Hrun |]. split; [exact Hst |].
  split; [| split; [exact Hlog | rewrite Hcrit; by_evaluation]].
  apply (f_equal (fun out => dict_keys (sys_modules (fst (fst out))))) in Hrun.
  cbn [fst] in Hrun. rewrite <- Hrun. by_evaluation.
Defined.

Lemma load_when_ready_is_illegal_on_hello :
  state Fixture.hello_ready = READY
  /\ exists msg,
       load Fixture.ext (Fixture.world1, Fixture.hello_ready)
       = ((Fixture.world1, Fixture.hello_ready), Raise (IllegalCallError msg)).
Proof.
  split; [by_evaluation |].
  apply (load_when_ready_is_illegal Fixture.ext Fixture.world1 Fixture.hello_ready).
  by_evaluation.
Defined.

Lemma file_hash_after_load_on_hello :
  exists w' p',
    load Fixture.ext (Fixture.world0, Fixture.hello) = ((w', p'), Ok tt)
    /\ file_hash p' =
       Some "66556011d92ef7f83c0a5cefe130dc6b15885cdc2e680c4487a7fa992ea13531"
    /\ file_hash p' =
       Some (SHA256.hexdigest (list_byte_of_string "def on_load(server, old): pass")).
Proof.
  exists Fixture.world1, Fixture.hello_loaded.
  assert (E : load Fixture.ext (Fixture.world0, Fixture.hello)
              = ((Fixture.world1, Fixture.hello_loaded), Ok tt)) by by_evaluation.
  split; [exact E |]. split; [by_evaluation |].
  apply (proj2 (file_hash_after_load Fixture.ext _ _ (or_introl E))).
  reflexivity.
Defined.

Lemma reload_keeps_state_on_hello :
  In (state Fixture.hello_ready) [LOADED; READY]
  /\ exists w' p',
       reload Fixture.ext (Fixture.world1_edited, Fixture.hello_ready) = ((w', p'), Ok tt)
       /\ state p' = READY.
Proof.
  assert (Hstate : In (state Fixture.hello_ready) [LOADED; READY]) by state_is_allowed.
  split; [exact Hstate |].
  pose (out := reload Fixture.ext (Fixture.world1_edited, Fixture.hello_ready)).
  assert (E : reload Fixture.ext (Fixture.world1_edited, Fixture.hello_ready)
              = ((fst (fst out), snd (fst out)), Ok tt)) by by_evaluation.
  exists (fst (fst out)), (snd (fst out)). split; [exact E |].
  rewrite (reload_keeps_state Fixture.ext _ _ Hstate E). by_evaluation.
Defined.

(** Before the edit [file_changed] answers [false], twice; after it, [true]. *)
Lemma file_changed_stable_on_hello :
  (exists b,
     file_changed (Fixture.world1, Fixture.hello_loaded)
     = ((Fixture.world1, Fixture.hello_loaded), Ok b)
     /\ file_changed (Fixture.world1, Fixture.hello_loaded)
        = ((Fixture.world1, Fixture.hello_loaded), Ok b)
     /\ b = false)
  /\ (exists b,
        file_changed (Fixture.world1_edited, Fixture.hello_loaded)
        = ((Fixture.world1_edited, Fixture.hello_loaded), Ok b)
        /\ b = true).
Proof.
  split.
  - destruct (file_changed_stable Fixture.world1 Fixture.hello_loaded
                Fixture.world1 Fixture.hello_loaded eq_refl eq_refl)
      as [b [H1 [H2 [Hiff _]]]].
    exists b. split; [exact H1 |]. split; [exact H2 |].
    destruct b; [| reflexivity].
    exfalso. apply (proj1 Hiff eq_refl). by_evaluation.
  - destruct (file_changed_stable Fixture.world1_edited Fixture.hello_loaded
                Fixture.world1_edited Fixture.hello_loaded eq_refl eq_refl)
      as [b [H1 [_ [Hiff _]]]].
    exists b. split; [exact H1 |]. apply Hiff. vm_compute. discriminate.
Defined.

Lemma ready_registers_default_listeners_on_hello :
  In (state Fixture.hello_loaded) [LOADED; READY]
  /\ exists p',
       ready Fixture.ext (Fixture.world1, Fixture.hello_loaded)
       = ((Fixture.world1, p'), Ok tt)
       /\ state p' = READY
       /\ map (fun entry => (event_id (fst entry), listener_callback (snd entry),
                             listener_priority (snd entry)))
              (plugin_registry p')
          = [ ("mcdr.plugin_loaded", PyFunction "on_load", 1000%Z);
              ("mcdr.general_info", PyFunction "on_info", 1000%Z) ].
Proof.
  assert (Hstate : In (state Fixture.hello_loaded) [LOADED; READY]) by state_is_allowed.
  split; [exact Hstate |].
  destruct (ready_registers_default_listeners Fixture.ext Fixture.world1
              Fixture.hello_loaded Hstate) as [p' [Hrun [Hst [Hreg _]]]].
  exists p'. split; [exact Hrun |]. split; [exact Hst |].
  rewrite Hreg. by_evaluation.
Defined.

Lemma get_metadata_requires_load_on_hello :
  (exists msg,
     get_metadata (Fixture.world0, Fixture.hello)
     = ((Fixture.world0, Fixture.hello), Raise (IllegalCallError msg)))
  /\ (exists msg,
        snd (get_metadata
               (run_history Fixture.ext
                  [Invoke CallReload; Invoke CallReady; Invoke CallUnload]
                  (Fixture.world0, __init__ Fixture.Meta "plugins/hello.py")))
        = Raise (IllegalCallError msg))
  /\ get_metadata (Fixture.world1, Fixture.hello_loaded)
     = ((Fixture.world1, Fixture.hello_loaded),
        Ok ("hello.py", PyOther "{'id': 'hello'}")).
Proof.
  destruct (get_metadata_requires_load Fixture.ext) as [Hunset [Hhistory Hloaded]].
  split; [| split].
  - apply Hunset. reflexivity.
  - apply Hhistory. vm_compute. tauto.
  - assert (E : load Fixture.ext (Fixture.world0, Fixture.hello)
                = ((Fixture.world1, Fixture.hello_loaded), Ok tt)) by by_evaluation.
    rewrite (Hloaded _ _ _ _ (or_introl E)). by_evaluation.
Defined.

(* ================================================================== *)
(** ** Further properties: guards, invariants of histories, compositions *)

Section Histories.
Variable MetaData : Type.
Variable ext : Collaborators MetaData.
Implicit Types (w : World) (p : Plugin MetaData).

Lemma not_allowed_false p (states : list PluginState) :
  ~ In (state p) states -> existsb (PluginState_eqb (state p)) states = false.
Proof.
  intros H. destruct (existsb (PluginState_eqb (state p)) states) eqn:E;
    [| reflexivity].
  exfalso. apply H. now apply state_allowed.
Qed.

(** Every life-cycle method called in a state outside the set it asserts
    raises [IllegalCallError] and leaves the process state and the plugin
    untouched. *)
Theorem invoke_outside_permitted_states (c : Call) w p :
  ~ In (state p) (permitted c) ->
  exists msg, invoke ext c (w, p) = ((w, p), Raise (IllegalCallError msg)).
Proof.
  intros Hstate. apply not_allowed_false in Hstate.
  destruct c; cbn [invoke permitted] in *;
    [rewrite load_run | rewrite ready_run | rewrite reload_run
     | rewrite unload_run | rewrite remove_run];
    rewrite Hstate; eexists; reflexivity.
Qed.

(** [ready], [unload] and [remove] have no other way to fail: each returns
    exactly when the state is one it permits. *)
Theorem loaderless_methods_return_iff_permitted (c : Call) w p :
  c = CallReady \/ c = CallUnload \/ c = CallRemove ->
  (snd (invoke ext c (w, p)) = Ok tt <-> In (state p) (permitted c)).
Proof.
  intros [-> | [-> | ->]]; cbn [invoke permitted];
    [rewrite ready_run | rewrite unload_run | rewrite remove_run];
    rewrite <- state_allowed;
    destruct (existsb _ _); cbn [snd]; split; intros H;
      try reflexivity; discriminate.
Qed.

(** [UNLOADED] is terminal: whatever is called on an unloaded plugin, and
    whatever happens around it, the plugin object stays as it is. *)
Theorem unloaded_is_terminal (h : list Step) : forall w p,
  state p = UNLOADED ->
  snd (run_history ext h (w, p)) = p.
Proof.
  induction h as [| [c | change] rest IH]; intros w p Hstate;
    cbn [run_history fst snd]; [reflexivity | | now apply IH].
  assert (Hsame : fst (invoke ext c (w, p)) = (w, p)).
  { destruct c; cbn [invoke];
      [rewrite load_run | rewrite ready_run | rewrite reload_run
       | rewrite unload_run | rewrite remove_run];
      rewrite Hstate; reflexivity. }
  rewrite Hsame. now apply IH.
Qed.

Lemma invoke_rank (c : Call) w p :
  state_rank (state p) <= state_rank (state (snd (fst (invoke ext c (w, p))))).
Proof.
  destruct c; cbn [invoke];
    [rewrite load_run | rewrite ready_run | rewrite reload_run
     | rewrite unload_run | rewrite remove_run];
    try destruct (load_source ext (file_path p) w) as [w1 [m | e]];
    destruct (state p) eqn:E; cbn; rewrite ?E; cbn; lia.
Qed.

(** The state only moves forward along
    UNINITIALIZED, LOADED, READY, UNLOADING, UNLOADED: no sequence of calls
    brings a plugin back to an earlier state. *)
Theorem state_never_goes_back (h : list Step) : forall s : World * Plugin MetaData,
  state_rank (state (snd s)) <= state_rank (state (snd (run_history ext h s))).
Proof.
  induction h as [| [c | change] rest IH]; intros [w p]; cbn [run_history fst snd].
  - lia.
  - etransitivity; [apply (invoke_rank c w p) |].
    destruct (invoke ext c (w, p)) as [[w' p'] r]. apply (IH (w', p')).
  - apply (IH (change w, p)).
Qed.

Lemma invoke_identity (c : Call) w p :
  file_path (snd (fst (invoke ext c (w, p)))) = file_path p
  /\ file_name (snd (fst (invoke ext c (w, p)))) = file_name p.
Proof.
  destruct c; cbn [invoke];
    [rewrite load_run | rewrite ready_run | rewrite reload_run
     | rewrite unload_run | rewrite remove_run];
    destruct (existsb _ _);
    try destruct (load_source ext (file_path p) w) as [w1 [m | e]];
    split; reflexivity.
Qed.

(** No method ever reassigns the identity of the plugin: after any history
    a plugin created for [path] still has that path, and its file name is
    still the base name of the path. *)
Theorem history_keeps_identity (h : list Step) (path : string) w :
  file_path (snd (run_history ext h (w, __init__ MetaData path))) = path
  /\ file_name (snd (run_history ext h (w, __init__ MetaData path))) = basename path.
Proof.
  assert (Hgen : forall s : World * Plugin MetaData,
             file_path (snd (run_history ext h s)) = file_path (snd s)
             /\ file_name (snd (run_history ext h s)) = file_name (snd s)).
  { induction h as [| [c | change] rest IH]; intros [w0 p0];
      cbn [run_history fst snd].
    - split; reflexivity.
    - destruct (invoke_identity c w0 p0) as [H1 H2].
      destruct (IH (fst (invoke ext c (w0, p0)))) as [H3 H4].
      split; congruence.
    - apply (IH (change w0, p0)). }
  apply (Hgen (w, __init__ MetaData path)).
Qed.

Lemma invoke_keeps_metadata_set (c : Call) w p :
  __metadata p <> None ->
  __metadata (snd (fst (invoke ext c (w, p)))) <> None.
Proof.
  intros Hset. destruct c; cbn [invoke];
    [rewrite load_run | rewrite ready_run | rewrite reload_run
     | rewrite unload_run | rewrite remove_run];
    destruct (existsb _ _);
    try destruct (load_source ext (file_path p) w) as [w1 [m | e]];
    cbn; try assumption; discriminate.
Qed.

(** Once a load has assigned the metadata no method unsets it: after any
    further history, failed reloads and the unloading included,
    [get_metadata] returns a value. *)
Theorem metadata_stays_available (h : list Step) : forall (s : World * Plugin MetaData),
  __metadata (snd s) <> None ->
  exists md, snd (get_metadata (run_history ext h s)) = Ok md.
Proof.
  induction h as [| [c | change] rest IH]; intros [w p] Hset;
    cbn [run_history fst snd] in *.
  - rewrite get_metadata_run. destruct (__metadata p) as [md |]; [| congruence].
    exists md. reflexivity.
  - apply IH. destruct (invoke ext c (w, p)) as [[w' p'] r] eqn:E.
    pose proof (@invoke_keeps_metadata_set c w p Hset) as H. now rewrite E in H.
  - apply (IH (change w, p)). exact Hset.
Qed.

Lemma invoke_lifecycle_invariant (c : Call) w p :
  lifecycle_invariant p ->
  lifecycle_invariant (snd (fst (invoke ext c (w, p)))).
Proof.
  intros (Huninit & Hloaded & Hlive).
  destruct c; cbn [invoke];
    [rewrite load_run | rewrite ready_run | rewrite reload_run
     | rewrite unload_run | rewrite remove_run];
    try destruct (load_source ext (file_path p) w) as [w1 [m | e]];
    destruct (state p) eqn:E; cbn [existsb PluginState_eqb orb fst snd];
    unfold lifecycle_invariant;
    cbn [state module_instance __metadata plugin_registry with_state
         with_plugin_registry with_metadata with_newly_loaded_module
         with_module_instance with_old_module_instance with_file_hash
         after_load after_failed_load];
    rewrite ?E;
    repeat split; intros; try discriminate; try tauto;
    try (destruct Huninit as (? & ? & ?); [reflexivity | assumption]);
    try (apply Hloaded; reflexivity);
    try (apply Hlive; tauto);
    try (match goal with H : _ \/ _ |- _ => destruct H; discriminate end).
Qed.

(** Along every history of a plugin: while it is [UNINITIALIZED] it holds
    no module, no metadata and no listener (a failed [load] leaves none
    behind); while it is [LOADED] it holds no listener; while it is [LOADED]
    or [READY] it holds a module and its metadata, so that [get_metadata]
    returns. *)
Theorem state_tells_fields (h : list Step) (path : string) w :
  lifecycle_invariant (snd (run_history ext h (w, __init__ MetaData path))).
Proof.
  assert (Hgen : forall s : World * Plugin MetaData,
             lifecycle_invariant (snd s) ->
             lifecycle_invariant (snd (run_history ext h s))).
  { induction h as [| [c | change] rest IH]; intros [w0 p0] Hinv;
      cbn [run_history fst snd] in *.
    - exact Hinv.
    - apply IH. now apply invoke_lifecycle_invariant.
    - apply (IH (change w0, p0)). exact Hinv. }
  apply (Hgen (w, __init__ MetaData path)).
  unfold lifecycle_invariant. cbn.
  split; [intros _; repeat split |].
  split; [intros _; reflexivity | intros [H | H]; discriminate].
Qed.

End Histories.

Section Compositions.
Variable MetaData : Type.
Variable ext : Collaborators MetaData.
Implicit Types (w : World) (p : Plugin MetaData).

(** What is left in [sys.modules] when the recorded difference between the
    registries [before] and [after] is evicted from [after]. *)
Lemma evicting_the_difference (before after : dict PyModule) (k : string) :
  In k (dict_keys (fold_left (@dict_remove PyModule)
                             (modules_not_in before after) after)) <->
  In k (dict_keys after) /\ In k (dict_keys before).
Proof.
  rewrite evicted_keys, modules_not_in_In.
  destruct (in_dec string_dec k (dict_keys before)); tauto.
Qed.

(** A [load] followed by [unload], whether the load returned or raised,
    leaves in [sys.modules] exactly the keys that were there before the load
    and that the loader kept; when the loader only adds keys, the key set is
    the one before the load. *)
Theorem load_then_unload_restores_registry w p w1 p1 (r : Result unit) :
  state p = UNINITIALIZED ->
  load ext (w, p) = ((w1, p1), r) ->
  exists w2 p2,
    unload ext (w1, p1) = ((w2, p2), Ok tt)
    /\ (forall k, In k (dict_keys (sys_modules w2)) <->
                  In k (dict_keys (sys_modules w1)) /\ In k (dict_keys (sys_modules w)))
    /\ ((forall k, In k (dict_keys (sys_modules w)) -> In k (dict_keys (sys_modules w1))) ->
        forall k, In k (dict_keys (sys_modules w2)) <-> In k (dict_keys (sys_modules w))).
Proof.
  intros Hstate Hload. rewrite load_run, Hstate in Hload.
  cbn [existsb PluginState_eqb orb] in Hload.
  assert (Hmain : exists w2 p2,
            unload ext (w1, p1) = ((w2, p2), Ok tt)
            /\ forall k, In k (dict_keys (sys_modules w2)) <->
                         In k (dict_keys (sys_modules w1))
                         /\ In k (dict_keys (sys_modules w))).
  { destruct (load_source ext (file_path p) w) as [wl [m | e]];
      inversion Hload; subst; clear Hload; rewrite unload_run;
      cbn [state with_state after_failed_load with_newly_loaded_module
           with_old_module_instance with_file_hash];
      rewrite ?Hstate; cbn [existsb PluginState_eqb orb];
      eexists _, _; (split; [reflexivity |]); intros k;
      cbn [sys_modules emit newly_loaded_module with_state after_load
           after_failed_load with_plugin_registry with_metadata
           with_newly_loaded_module];
      apply evicting_the_difference. }
  destruct Hmain as [w2 [p2 [Hrun Hkeys]]]. exists w2, p2.
  split; [exact Hrun |]. split; [exact Hkeys |].
  intros Hadds k. rewrite Hkeys. split; [tauto |]. intros H. split; auto.
Qed.

(** [reload] overwrites the record of what the [load] introduced: the
    modules the load introduced that are still registered after a reload
    are not evicted by the [unload] that follows. *)
Theorem reload_forgets_earlier_modules w0 p0 w1 p1 w2 p2 (r : Result unit) :
  state p0 = UNINITIALIZED ->
  load ext (w0, p0) = ((w1, p1), Ok tt) ->
  reload ext (w1, p1) = ((w2, p2), r) ->
  exists w3 p3,
    unload ext (w2, p2) = ((w3, p3), Ok tt)
    /\ forall k, In k (newly_loaded_module p1) ->
                 In k (dict_keys (sys_modules w2)) ->
                 In k (dict_keys (sys_modules w3)).
Proof.
  intros Hstate Hload Hreload. rewrite load_run, Hstate in Hload.
  cbn [existsb PluginState_eqb orb] in Hload.
  destruct (load_source ext (file_path p0) w0) as [wl [m | e]]; [| discriminate].
  inversion Hload; subst; clear Hload.
  rewrite reload_run in Hreload.
  cbn [state with_state existsb PluginState_eqb orb] in Hreload.
  match type of Hreload with
  | context [load_source ext ?path ?w] =>
      destruct (load_source ext path w) as [wr [m' | e']]
  end; inversion Hreload; subst; clear Hreload; rewrite unload_run;
    cbn [state with_state after_load after_failed_load with_plugin_registry
         with_metadata with_newly_loaded_module with_module_instance
         with_old_module_instance with_file_hash existsb PluginState_eqb orb];
    eexists _, _; (split; [reflexivity |]); intros k Hnew Hin;
    cbn [sys_modules emit newly_loaded_module with_state after_load
         after_failed_load with_plugin_registry with_metadata
         with_newly_loaded_module] in *;
    apply evicting_the_difference; (split; [exact Hin |]);
    apply modules_not_in_In in Hnew; tauto.
Qed.

(** A [reload] that returned has dropped every listener, also those of a
    [READY] plugin (which stays [READY]); the [ready] that follows registers
    the default listeners of the new module and nothing else. *)
Theorem reload_then_ready_registers_afresh w p w' p' :
  In (state p) [LOADED; READY] ->
  reload ext (w, p) = ((w', p'), Ok tt) ->
  plugin_registry p' = []
  /\ exists p'',
       ready ext (w', p') = ((w', p''), Ok tt)
       /\ state p'' = READY
       /\ plugin_registry p'' = default_listeners ext p'.
Proof.
  intros Hstate Hreload.
  assert (Hstate' : state p' = state p).
  { rewrite <- (reload_state ext w p), Hreload. reflexivity. }
  assert (Hreg : plugin_registry p' = []).
  { rewrite reload_run in Hreload. destruct (existsb _ _); [| discriminate].
    destruct (load_source ext (file_path p) w) as [w1 [m | e]]; [| discriminate].
    inversion Hreload; subst. reflexivity. }
  split; [exact Hreg |]. rewrite ready_run, Hstate', (allowed_true _ _ Hstate), Hreg.
  eexists. split; [reflexivity |]. split; reflexivity.
Qed.

Lemma opt_str_neq_same (a : option string) : opt_str_neq a a = false.
Proof. destruct a as [x |]; [simpl; now rewrite String.eqb_refl | reflexivity]. Qed.

(** After a permitted [load] or [reload], returned or raised,
    [file_changed] answers [False] as long as the file has the bytes it had
    when the call started: a file whose load failed is not reported as
    changed. *)
Theorem file_not_changed_after_load w p
        (run : (World * Plugin MetaData) * Result unit) :
  (state p = UNINITIALIZED /\ run = load ext (w, p))
  \/ (In (state p) [LOADED; READY] /\ run = reload ext (w, p)) ->
  dict_get (files (fst (fst run))) (file_path p) = dict_get (files w) (file_path p) ->
  file_changed (fst run) = (fst run, Ok false).
Proof.
  intros Hcall Hfile.
  assert (Hfields : file_path (snd (fst run)) = file_path p
                    /\ file_hash (snd (fst run)) = file_digest w (file_path p)).
  { destruct Hcall as [[Hstate ->] | [Hstate ->]];
      [rewrite load_run, Hstate; cbn [existsb PluginState_eqb orb]
      | rewrite reload_run, (allowed_true _ _ Hstate)];
      destruct (load_source ext (file_path p) w) as [w1 [m | e]];
      split; reflexivity. }
  destruct Hfields as [Hpath Hhash].
  destruct run as [[w' p'] r]. cbn [fst snd] in *.
  rewrite file_changed_run. unfold file_digest at 1.
  rewrite Hpath, Hfile, Hhash. unfold file_digest.
  now rewrite opt_str_neq_same.
Qed.

(** [__load_instance] keeps the module it replaces in
    [old_module_instance]; when the loader raises, [module_instance] is not
    replaced, so that both fields then hold the same module. *)
Theorem load_instance_keeps_previous_module w p w' p' (r : Result unit) :
  __load_instance ext (w, p) = ((w', p'), r) ->
  old_module_instance p' = module_instance p
  /\ match r with
     | Ok _ => exists m, load_source ext (file_path p) w = (w', Ok m)
                         /\ module_instance p' = Some m
     | Raise e => load_source ext (file_path p) w = (w', Raise e)
                  /\ module_instance p' = old_module_instance p'
     end.
Proof.
  intros Hrun. rewrite load_instance_run in Hrun.
  destruct (load_source ext (file_path p) w) as [w1 [m | e]];
    inversion Hrun; subst; (split; [reflexivity |]).
  - exists m. split; reflexivity.
  - split; reflexivity.
Qed.

Lemma unload_records_map p (l : list string) : forall d : dict PyModule,
  NoDup l ->
  unload_records p l d = map (unload_record p d) l.
Proof.
  induction l as [| module rest IH]; intros d Hnd; [reflexivity |].
  inversion Hnd as [| ? ? Hnotin Hrest]; subst.
  cbn [unload_records map]. fold (unload_record p d module). f_equal.
  rewrite (IH _ Hrest). apply map_ext_in. intros m Hin. unfold unload_record.
  assert (Hsame : contains m (dict_keys (dict_remove d module))
                  = contains m (dict_keys d)).
  { destruct (contains m (dict_keys d)) eqn:E.
    - apply contains_In. apply dict_remove_keys. split.
      + now apply contains_In.
      + intros ->. now apply Hnotin.
    - apply contains_false. intros H. apply dict_remove_keys in H.
      apply contains_false in E. tauto. }
  now rewrite Hsame.
Qed.

(** [unload] writes exactly one record per recorded module, in the order of
    the list: a debug record when the module was in [sys.modules] on entry
    (it is removed), a critical one when it was not. *)
Theorem unload_writes_one_record_per_module w p :
  In (state p) [UNINITIALIZED; LOADED; READY] ->
  NoDup (newly_loaded_module p) ->
  exists w' p',
    unload ext (w, p) = ((w', p'), Ok tt)
    /\ files w' = files w
    /\ logger w' =
       (logger w ++ map (unload_record p (sys_modules w)) (newly_loaded_module p))%list.
Proof.
  intros Hstate Hnd. rewrite unload_run, (allowed_true _ _ Hstate).
  eexists _, _. split; [reflexivity |]. split; [reflexivity |].
  cbn [logger]. now rewrite unload_records_map.
Qed.

(** With nothing recorded, as for a plugin that was never loaded, [unload]
    leaves the process state alone, writes no record, and only moves the
    plugin to [UNLOADING]. *)
Theorem unload_with_nothing_recorded w p :
  In (state p) [UNINITIALIZED; LOADED; READY] ->
  newly_loaded_module p = [] ->
  unload ext (w, p) = ((w, with_state p UNLOADING), Ok tt).
Proof.
  intros Hstate Hnone. rewrite unload_run, (allowed_true _ _ Hstate), Hnone.
  cbn [fold_left unload_records]. rewrite app_nil_r.
  destruct w, p. cbn in *. subst. reflexivity.
Qed.

(** A plugin whose hash is unset reports its file as changed exactly when
    the file exists. *)
Theorem file_changed_without_hash w p :
  file_hash p = None ->
  file_changed (w, p) = ((w, p), Ok (isfile w (file_path p))).
Proof.
  intros Hnone. rewrite file_changed_run, Hnone. unfold file_digest, isfile.
  destruct (dict_get (files w) (file_path p)); reflexivity.
Qed.

Lemma default_listeners_events p :
  map fst (default_listeners ext p)
  = filter (has_default_handler p) (get_event_list ext).
Proof.
  unfold default_listeners, listeners_for, has_default_handler.
  induction (get_event_list ext) as [| event rest IH]; [reflexivity |].
  cbn [flat_map filter]. rewrite map_app, IH.
  destruct (default_method_name event) as [name |]; cbv zeta;
    [destruct (callable (getattr (module_instance p) name PyNone)) |];
    reflexivity.
Qed.

(** One [ready] gives a listener to exactly the catalog entries whose
    default handler the module binds to a callable, one each and in catalog
    order, after the listeners that were there; so it adds at most as many
    listeners as the catalog has entries. *)
Theorem ready_follows_catalog w p :
  In (state p) [LOADED; READY] ->
  exists p',
    ready ext (w, p) = ((w, p'), Ok tt)
    /\ map fst (plugin_registry p')
       = (map fst (plugin_registry p)
            ++ filter (has_default_handler p) (get_event_list ext))%list
    /\ List.length (plugin_registry p')
       <= List.length (plugin_registry p) + List.length (get_event_list ext).
Proof.
  intros Hstate. rewrite ready_run, (allowed_true _ _ Hstate).
  eexists. split; [reflexivity |].
  cbn [plugin_registry with_state with_plugin_registry].
  rewrite map_app, length_app, default_listeners_events. split; [reflexivity |].
  apply Nat.add_le_mono_l. rewrite <- (length_map fst), default_listeners_events.
  apply filter_length_le.
Qed.

End Compositions.

(* ================================================================== *)
(** ** The shape of a file hash *)

Section HashFormat.
Local Open Scope N_scope.








End HashFormat.


(* ================================================================== *)
(** ** The further properties on the concrete process *)

(** [remove] on a plugin that is only loaded is refused. *)
Lemma invoke_outside_permitted_states_on_hello :
  ~ In (state Fixture.hello_loaded) (permitted CallRemove)
  /\ exists msg,
       invoke Fixture.ext CallRemove (Fixture.world1, Fixture.hello_loaded)
       = ((Fixture.world1, Fixture.hello_loaded), Raise (IllegalCallError msg)).
Proof.
  assert (H : ~ In (state Fixture.hello_loaded) (permitted CallRemove)).
  { vm_compute. intros [H | []]. discriminate. }
  split; [exact H |].
  exact (invoke_outside_permitted_states Fixture.ext CallRemove Fixture.world1 _ H).
Defined.

Lemma loaderless_methods_return_iff_permitted_on_hello :
  In (state Fixture.hello_ready) (permitted CallUnload)
  /\ snd (unload Fixture.ext (Fixture.world1, Fixture.hello_ready)) = Ok tt.
Proof.
  assert (Hstate : In (state Fixture.hello_ready) (permitted CallUnload))
    by state_is_allowed.
  split; [exact Hstate |].
  apply (loaderless_methods_return_iff_permitted Fixture.ext (c := CallUnload)
           Fixture.world1 Fixture.hello_ready); [tauto | exact Hstate].
Defined.

Lemma unloaded_is_terminal_on_hello :
  state Fixture.hello_unloaded = UNLOADED
  /\ snd (run_history Fixture.ext
             [Invoke CallLoad; Invoke CallReload; Invoke CallReady;
              Invoke CallUnload; Invoke CallRemove]
             (Fixture.world_end, Fixture.hello_unloaded))
     = Fixture.hello_unloaded.
Proof.
  split; [by_evaluation |].
  apply (unloaded_is_terminal Fixture.ext). by_evaluation.
Defined.

Lemma metadata_stays_available_on_hello :
  __metadata Fixture.hello_loaded <> None
  /\ exists md,
       snd (get_metadata
              (run_history Fixture.ext
                 [Invoke CallReady; Outside (fun _ => Fixture.world_no_file);
                  Invoke CallReload; Invoke CallUnload; Invoke CallRemove]
                 (Fixture.world1, Fixture.hello_loaded))) = Ok md.
Proof.
  assert (H : __metadata Fixture.hello_loaded <> None) by (vm_compute; discriminate).
  split; [exact H |].
  exact (metadata_stays_available Fixture.ext _ (Fixture.world1, Fixture.hello_loaded) H).
Defined.

(** Load then unload: the registry is back to [sys] and [os]. *)
Lemma load_then_unload_restores_registry_on_hello :
  state Fixture.hello = UNINITIALIZED
  /\ dict_keys (sys_modules Fixture.world0) = ["sys"; "os"]
  /\ exists w2 p2,
       unload Fixture.ext (Fixture.world1, Fixture.hello_loaded) = ((w2, p2), Ok tt)
       /\ dict_keys (sys_modules w2) = ["sys"; "os"]
       /\ forall k, In k (dict_keys (sys_modules w2)) <->
                    In k (dict_keys (sys_modules Fixture.world1))
                    /\ In k (dict_keys (sys_modules Fixture.world0)).
Proof.
  split; [reflexivity |]. split; [by_evaluation |].
  assert (E : load Fixture.ext (Fixture.world0, Fixture.hello)
              = ((Fixture.world1, Fixture.hello_loaded), Ok tt)) by by_evaluation.
  destruct (load_then_unload_restores_registry Fixture.ext
              Fixture.world0 Fixture.hello eq_refl E) as [w2 [p2 [Hrun [Hkeys _]]]].
  exists w2, p2. split; [exact Hrun |]. split; [| exact Hkeys].
  apply (f_equal (fun out => dict_keys (sys_modules (fst (fst out))))) in Hrun.
  cbn [fst] in Hrun. rewrite <- Hrun. by_evaluation.
Defined.

(** Load, reload, unload: the three modules of the load stay registered. *)
Lemma reload_forgets_earlier_modules_on_hello :
  newly_loaded_module Fixture.hello_loaded
  = ["plugins_hello_py"; "hello_helper"; "hello_util"]
  /\ exists w2 p2 w3 p3,
       reload Fixture.ext (Fixture.world1, Fixture.hello_loaded) = ((w2, p2), Ok tt)
       /\ newly_loaded_module p2 = []
       /\ unload Fixture.ext (w2, p2) = ((w3, p3), Ok tt)
       /\ (forall k, In k (newly_loaded_module Fixture.hello_loaded) ->
                     In k (dict_keys (sys_modules w3))).
Proof.
  split; [by_evaluation |].
  assert (E1 : load Fixture.ext (Fixture.world0, Fixture.hello)
               = ((Fixture.world1, Fixture.hello_loaded), Ok tt)) by by_evaluation.
  pose (out := reload Fixture.ext (Fixture.world1, Fixture.hello_loaded)).
  assert (E2 : reload Fixture.ext (Fixture.world1, Fixture.hello_loaded)
               = ((fst (fst out), snd (fst out)), Ok tt)) by by_evaluation.
  destruct (reload_forgets_earlier_modules Fixture.ext
              Fixture.world0 Fixture.hello eq_refl E1 E2) as [w3 [p3 [Hrun Hkeep]]].
  exists (fst (fst out)), (snd (fst out)), w3, p3.
  split; [exact E2 |]. split; [by_evaluation |]. split; [exact Hrun |].
  intros k Hk. apply Hkeep; [exact Hk |].
  vm_compute in Hk. vm_compute. tauto.
Defined.

Lemma reload_then_ready_registers_afresh_on_hello :
  In (state Fixture.hello_ready) [LOADED; READY]
  /\ List.length (plugin_registry Fixture.hello_ready) = 2
  /\ plugin_registry Fixture.hello_reloaded = []
  /\ state Fixture.hello_reloaded = READY
  /\ exists p'',
       ready Fixture.ext (Fixture.world2, Fixture.hello_reloaded)
       = ((Fixture.world2, p''), Ok tt)
       /\ plugin_registry p'' = default_listeners Fixture.ext Fixture.hello_reloaded.
Proof.
  assert (Hstate : In (state Fixture.hello_ready) [LOADED; READY]) by state_is_allowed.
  assert (E : reload Fixture.ext (Fixture.world1, Fixture.hello_ready)
              = ((Fixture.world2, Fixture.hello_reloaded), Ok tt)) by by_evaluation.
  destruct (reload_then_ready_registers_afresh Fixture.ext _ _ Hstate E)
    as [Hreg [p'' [Hrun [_ Hnew]]]].
  split; [exact Hstate |]. split; [by_evaluation |]. split; [exact Hreg |].
  split; [by_evaluation |]. exists p''. split; [exact Hrun | exact Hnew].
Defined.

(** The broken file fails to load and is not reported as changed. *)
Lemma file_not_changed_after_load_on_broken :
  snd (load Fixture.ext (Fixture.world0, Fixture.broken))
  = Raise (OtherException "SyntaxError" "invalid syntax")
  /\ file_changed (fst (load Fixture.ext (Fixture.world0, Fixture.broken)))
     = (fst (load Fixture.ext (Fixture.world0, Fixture.broken)), Ok false).
Proof.
  split; [by_evaluation |].
  apply (file_not_changed_after_load Fixture.ext Fixture.world0 Fixture.broken).
  - left. split; reflexivity.
  - by_evaluation.
Defined.

Lemma load_instance_keeps_previous_module_on_hello :
  exists w' p',
    __load_instance Fixture.ext (Fixture.world1_edited, Fixture.hello_loaded)
    = ((w', p'), Ok tt)
    /\ old_module_instance Fixture.hello_loaded = None
    /\ old_module_instance p' = Some Fixture.hello_module.
Proof.
  pose (out := __load_instance Fixture.ext (Fixture.world1_edited, Fixture.hello_loaded)).
  assert (E : __load_instance Fixture.ext (Fixture.world1_edited, Fixture.hello_loaded)
              = ((fst (fst out), snd (fst out)), Ok tt)) by by_evaluation.
  exists (fst (fst out)), (snd (fst out)).
  split; [exact E |]. split; [by_evaluation |].
  rewrite (proj1 (load_instance_keeps_previous_module Fixture.ext _ _ E)).
  by_evaluation.
Defined.

Lemma unload_writes_one_record_per_module_on_hello :
  In (state Fixture.hello_ready) [UNINITIALIZED; LOADED; READY]
  /\ NoDup (newly_loaded_module Fixture.hello_ready)
  /\ exists w' p',
       unload Fixture.ext (Fixture.world1_helper_gone, Fixture.hello_ready)
       = ((w', p'), Ok tt)
       /\ logger w' =
          (logger Fixture.world1_helper_gone
             ++ [removed_record Fixture.hello_ready "plugins_hello_py";
                 not_found_record Fixture.hello_ready "hello_helper";
                 removed_record Fixture.hello_ready "hello_util"])%list.
Proof.
  assert (Hstate : In (state Fixture.hello_ready) [UNINITIALIZED; LOADED; READY])
    by state_is_allowed.
  assert (Hnd : NoDup (newly_loaded_module Fixture.hello_ready)).
  { vm_compute. repeat constructor; simpl; intuition discriminate. }
  split; [exact Hstate |]. split; [exact Hnd |].
  destruct (unload_writes_one_record_per_module Fixture.ext
              Fixture.world1_helper_gone Fixture.hello_ready Hstate Hnd)
    as [w' [p' [Hrun [_ Hlog]]]].
  exists w', p'. split; [exact Hrun |]. rewrite Hlog. by_evaluation.
Defined.

(** Unloading a plugin that was never loaded. *)
Lemma unload_with_nothing_recorded_on_hello :
  In (state Fixture.hello) [UNINITIALIZED; LOADED; READY]
  /\ newly_loaded_module Fixture.hello = []
  /\ unload Fixture.ext (Fixture.world0, Fixture.hello)
     = ((Fixture.world0, with_state Fixture.hello UNLOADING), Ok tt).
Proof.
  assert (Hstate : In (state Fixture.hello) [UNINITIALIZED; LOADED; READY])
    by state_is_allowed.
  split; [exact Hstate |]. split; [reflexivity |].
  exact (unload_with_nothing_recorded Fixture.ext Fixture.world0 Fixture.hello
           Hstate eq_refl).
Defined.

Lemma file_changed_without_hash_on_hello :
  file_hash Fixture.hello = None
  /\ file_changed (Fixture.world0, Fixture.hello)
     = ((Fixture.world0, Fixture.hello), Ok true)
  /\ file_changed (Fixture.world_no_file, Fixture.hello)
     = ((Fixture.world_no_file, Fixture.hello), Ok false).
Proof.
  split; [reflexivity |]. split.
  - rewrite (file_changed_without_hash Fixture.world0 Fixture.hello eq_refl).
    by_evaluation.
  - rewrite (file_changed_without_hash Fixture.world_no_file Fixture.hello eq_refl).
    by_evaluation.
Defined.


Lemma ready_follows_catalog_on_hello :
  In (state Fixture.hello_loaded) [LOADED; READY]
  /\ exists p',
       ready Fixture.ext (Fixture.world1, Fixture.hello_loaded)
       = ((Fixture.world1, p'), Ok tt)
       /\ map (fun entry => event_id (fst entry)) (plugin_registry p')
          = ["mcdr.plugin_loaded"; "mcdr.general_info"].
Proof.
  assert (Hstate : In (state Fixture.hello_loaded) [LOADED; READY]) by state_is_allowed.
  split; [exact Hstate |].
  destruct (ready_follows_catalog Fixture.ext Fixture.world1 Fixture.hello_loaded Hstate)
    as [p' [Hrun [Hevents _]]].
  exists p'. split; [exact Hrun |].
  rewrite <- (map_map fst event_id), Hevents. by_evaluation.
Defined.
